(** * Navia Document Validator

    A shallow embedding of the two pieces of the application that carry
    behaviour: the [validate-document] relay function
    (netlify/functions/validate-document.ts) and the [FileUpload] component
    (src/components/FileUpload.tsx), together with the parts of the
    JavaScript platform they rely on (strings, truthiness, [JSON.parse]).
    Around them: what the component shows of its state, the tests and the
    captions of the result display (src/components/ValidationResult.tsx),
    and the flag endpoint (netlify/functions/feature-flags.ts).

    Everything outside the program (the network, the inference API, the
    feature-flag service, engine-chosen diagnostic texts) enters the model
    as an explicit argument. *)

From Stdlib Require Import List String Ascii NArith ZArith Bool Lia Sorted.
From Stdlib Require DecimalString.
Import ListNotations.
Local Open Scope list_scope.

(* ====================================================================== *)
(** * JavaScript strings and values                                        *)
(* ====================================================================== *)

Module Js.

(** A JavaScript string is a sequence of UTF-16 code units. *)
Definition jschar := N.
Definition jsstring := list jschar.

(** Literals of the source text, written as Rocq strings. *)
Definition js (s : string) : jsstring :=
  map N_of_ascii (list_ascii_of_string s).

Definition isc (a : ascii) (c : jschar) : bool := N.eqb c (N_of_ascii a).

(** The characters that have no plain literal form here. *)
Definition QUOTE : jschar := 34%N.
Definition LF : jschar := 10%N.

Fixpoint jsstring_eqb (a b : jsstring) : bool :=
  match a, b with
  | [], [] => true
  | x :: a', y :: b' => N.eqb x y && jsstring_eqb a' b'
  | _, _ => false
  end.

(** ** [String.prototype.trim]

    WhiteSpace and LineTerminator code points of ECMAScript. *)
Definition isWhiteSpace (c : jschar) : bool :=
  (existsb (N.eqb c)
     [9; 10; 11; 12; 13; 32; 160; 5760; 8232; 8233; 8239; 8287; 12288;
      65279]
   || ((8192 <=? c) && (c <=? 8202)))%N.

Fixpoint trimStart (s : jsstring) : jsstring :=
  match s with
  | c :: r => if isWhiteSpace c then trimStart r else s
  | [] => []
  end.

Definition trimEnd (s : jsstring) : jsstring := rev (trimStart (rev s)).

Definition trim (s : jsstring) : jsstring := trimEnd (trimStart s).

(** ** [startsWith] and [replace] with an anchored literal pattern *)

Fixpoint stripPrefix (p s : jsstring) : option jsstring :=
  match p, s with
  | [], _ => Some s
  | a :: p', b :: s' => if N.eqb a b then stripPrefix p' s' else None
  | _ :: _, [] => None
  end.

Definition startsWith (s p : jsstring) : bool :=
  match stripPrefix p s with Some _ => true | None => false end.

(** [s.replace(/^p/, '')] for a literal [p]. *)
Definition removePrefix (p s : jsstring) : jsstring :=
  match stripPrefix p s with Some r => r | None => s end.

(** [s.replace(/p$/, '')] for a literal [p]; without the [m] flag [$]
    matches at the end of the input only. *)
Definition removeSuffix (p s : jsstring) : jsstring :=
  match stripPrefix (rev p) (rev s) with
  | Some r => rev r
  | None => s
  end.

(** Decimal rendering of a non-negative integer, as a template literal
    does for [response.status]. *)
Definition N_to_js (n : N) : jsstring :=
  js (DecimalString.NilZero.string_of_uint (N.to_uint n)).

(** ** Values *)

(** Numbers are kept as the exact decimal [m * 10^e] of their literal; the
    engine rounds that to the nearest double. *)
#[warnings="-register-all"] Inductive jsval : Type :=
| JUndefined
| JNull
| JBool (b : bool)
| JNumber (m e : Z)
| JString (s : jsstring)
| JArray (xs : list jsval)
| JObject (props : list (jsstring * jsval)).

(** [m * 10^e] rounds to (plus or minus) zero exactly when its magnitude is
    at most half of the least subnormal double, [2^-1075]. *)
Definition rounds_to_zero (m e : Z) : bool :=
  (if 0 <=? e then m =? 0
   else Z.abs m * 2 ^ 1075 <=? 10 ^ (- e))%Z.

(** ToBoolean. *)
Definition truthy (v : jsval) : bool :=
  match v with
  | JUndefined | JNull => false
  | JBool b => b
  | JNumber m e => negb (rounds_to_zero m e)
  | JString s => match s with [] => false | _ :: _ => true end
  | JArray _ | JObject _ => true
  end.

(** [a || b]. *)
Definition or_else (a b : jsval) : jsval := if truthy a then a else b.

Fixpoint lookup (k : jsstring) (props : list (jsstring * jsval))
  : option jsval :=
  match props with
  | [] => None
  | (k', v) :: rest => if jsstring_eqb k k' then Some v else lookup k rest
  end.

(** Defining a data property: an existing key keeps its place and takes the
    new value. *)
Fixpoint setProp (k : jsstring) (v : jsval) (props : list (jsstring * jsval))
  : list (jsstring * jsval) :=
  match props with
  | [] => [(k, v)]
  | (k', v') :: rest =>
      if jsstring_eqb k k' then (k, v) :: rest
      else (k', v') :: setProp k v rest
  end.

(** [v.k] for a name [k] that no prototype defines (the program reads
    [success], [result] and [error]): [None] is the TypeError raised on
    [null] and [undefined]. *)
Definition getProp (v : jsval) (k : jsstring) : option jsval :=
  match v with
  | JUndefined | JNull => None
  | JObject props =>
      Some (match lookup k props with Some x => x | None => JUndefined end)
  | JBool _ | JNumber _ _ | JString _ | JArray _ => Some JUndefined
  end.

(** ** [JSON.parse] *)

Definition isJsonWs (c : jschar) : bool :=
  (N.eqb c 32 || N.eqb c 9 || N.eqb c 10 || N.eqb c 13)%N.

Fixpoint skipWs (s : jsstring) : jsstring :=
  match s with
  | c :: r => if isJsonWs c then skipWs r else s
  | [] => []
  end.

Definition isDigit (c : jschar) : bool := ((48 <=? c) && (c <=? 57))%N.

(** Reads the longest run of digits: its value on top of [acc], how many
    digits were read, and the rest. *)
Fixpoint digits (s : jsstring) (acc : N) (count : nat)
  : N * nat * jsstring :=
  match s with
  | c :: r =>
      if isDigit c then digits r (acc * 10 + (c - 48))%N (S count)
      else (acc, count, s)
  | [] => (acc, count, s)
  end.

Definition hexVal (c : jschar) : option N :=
  (if isDigit c then Some (c - 48)
   else if (97 <=? c) && (c <=? 102) then Some (c - 87)
   else if (65 <=? c) && (c <=? 70) then Some (c - 55)
   else None)%N.

Definition escapeChar (c : jschar) : option jschar :=
  if N.eqb c QUOTE then Some QUOTE
  else if isc "\" c then Some (N_of_ascii "\")
  else if isc "/" c then Some (N_of_ascii "/")
  else if isc "b" c then Some 8%N
  else if isc "f" c then Some 12%N
  else if isc "n" c then Some 10%N
  else if isc "r" c then Some 13%N
  else if isc "t" c then Some 9%N
  else None.

(** The characters of a string literal after its opening quote. *)
Fixpoint parseString (s : jsstring) (acc : jsstring)
  : option (jsstring * jsstring) :=
  match s with
  | [] => None
  | c :: r =>
      if N.eqb c QUOTE then Some (rev acc, r)
      else if isc "\" c then
        match r with
        | [] => None
        | e :: r1 =>
            if isc "u" e then
              match r1 with
              | h1 :: h2 :: h3 :: h4 :: r2 =>
                  match hexVal h1, hexVal h2, hexVal h3, hexVal h4 with
                  | Some a, Some b, Some c', Some d =>
                      parseString r2
                        (((a * 16 + b) * 16 + c') * 16 + d :: acc)%N
                  | _, _, _, _ => None
                  end
              | _ => None
              end
            else
              match escapeChar e with
              | Some x => parseString r1 (x :: acc)
              | None => None
              end
        end
      else if (c <? 32)%N then None
      else parseString r (c :: acc)
  end.

(** A number literal: an optional minus sign; an integer part that is
    either the single digit 0 or starts with a non-zero digit; an optional
    fraction (a point and at least one digit); an optional exponent (e or E,
    an optional sign, at least one digit). *)
Definition parseSign (s : jsstring) : bool * jsstring :=
  match s with
  | c :: r => if isc "-" c then (true, r) else (false, s)
  | [] => (false, s)
  end.

Definition parseInt (s : jsstring) : option (N * jsstring) :=
  match s with
  | c :: r =>
      if isc "0" c then Some (0%N, r)
      else if isDigit c then
        let '(n, _, r') := digits s 0 0 in Some (n, r')
      else None
  | [] => None
  end.

(** The fraction extends the mantissa [n] and lowers the exponent. *)
Definition parseFrac (n : N) (s : jsstring) : option (N * Z * jsstring) :=
  match s with
  | c :: r =>
      if isc "." c then
        match digits r n 0 with
        | (_, O, _) => None
        | (m, k, r') => Some (m, (- Z.of_nat k)%Z, r')
        end
      else Some (n, 0%Z, s)
  | [] => Some (n, 0%Z, s)
  end.

Definition parseExp (s : jsstring) : option (Z * jsstring) :=
  match s with
  | c :: r =>
      if isc "e" c || isc "E" c then
        let '(neg, r1) :=
          match r with
          | d :: r0 =>
              if isc "-" d then (true, r0)
              else if isc "+" d then (false, r0)
              else (false, r)
          | [] => (false, r)
          end in
        match digits r1 0 0 with
        | (_, O, _) => None
        | (x, _, r') =>
            Some (if neg then (- Z.of_N x)%Z else Z.of_N x, r')
        end
      else Some (0%Z, s)
  | [] => Some (0%Z, s)
  end.

Definition parseNumber (s : jsstring) : option (jsval * jsstring) :=
  let '(neg, s1) := parseSign s in
  match parseInt s1 with
  | None => None
  | Some (n, s2) =>
      match parseFrac n s2 with
      | None => None
      | Some (m, e, s3) =>
          match parseExp s3 with
          | None => None
          | Some (x, s4) =>
              Some (JNumber (if neg then (- Z.of_N m)%Z else Z.of_N m)
                            (e + x), s4)
          end
      end
  end.

(** A value that is not an array or an object, [c] being its first
    character and [r] what follows. *)
Definition parseScalar (c : jschar) (r : jsstring)
  : option (jsval * jsstring) :=
  if N.eqb c QUOTE then
    match parseString r [] with
    | Some (str, r') => Some (JString str, r')
    | None => None
    end
  else if isc "t" c then
    match stripPrefix (js "rue") r with
    | Some r' => Some (JBool true, r')
    | None => None
    end
  else if isc "f" c then
    match stripPrefix (js "alse") r with
    | Some r' => Some (JBool false, r')
    | None => None
    end
  else if isc "n" c then
    match stripPrefix (js "ull") r with
    | Some r' => Some (JNull, r')
    | None => None
    end
  else parseNumber (c :: r).

(** Recursive descent over the JSON grammar.  Every nested call takes one
    unit of [fuel]; [JSON_parse] below supplies enough of it for the whole
    text ([JsonFacts.JSON_parse_fuel_enough]). *)
Fixpoint parseValue (fuel : nat) (s : jsstring)
  : option (jsval * jsstring) :=
  match fuel with
  | O => None
  | S fuel' =>
      match skipWs s with
      | [] => None
      | c :: r =>
          if isc "{" c then
            match skipWs r with
            | d :: r' =>
                if isc "}" d then Some (JObject [], r')
                else parseMembers fuel' r []
            | [] => None
            end
          else if isc "[" c then
            match skipWs r with
            | d :: r' =>
                if isc "]" d then Some (JArray [], r')
                else parseElements fuel' r []
            | [] => None
            end
          else parseScalar c r
      end
  end

with parseElements (fuel : nat) (s : jsstring) (acc : list jsval)
  : option (jsval * jsstring) :=
  match fuel with
  | O => None
  | S fuel' =>
      match parseValue fuel' s with
      | None => None
      | Some (v, r) =>
          match skipWs r with
          | c :: r' =>
              if isc "," c then parseElements fuel' r' (acc ++ [v])
              else if isc "]" c then Some (JArray (acc ++ [v]), r')
              else None
          | [] => None
          end
      end
  end

with parseMembers (fuel : nat) (s : jsstring)
       (acc : list (jsstring * jsval))
  : option (jsval * jsstring) :=
  match fuel with
  | O => None
  | S fuel' =>
      match skipWs s with
      | q :: r0 =>
          if N.eqb q QUOTE then
            match parseString r0 [] with
            | None => None
            | Some (k, r1) =>
                match skipWs r1 with
                | c :: r2 =>
                    if isc ":" c then
                      match parseValue fuel' r2 with
                      | None => None
                      | Some (v, r3) =>
                          match skipWs r3 with
                          | d :: r4 =>
                              if isc "," d then
                                parseMembers fuel' r4 (setProp k v acc)
                              else if isc "}" d then
                                Some (JObject (setProp k v acc), r4)
                              else None
                          | [] => None
                          end
                      end
                    else None
                | [] => None
                end
            end
          else None
      | [] => None
      end
  end.

(** [JSON.parse text]; [None] stands for the SyntaxError it throws. *)
Definition JSON_parse (text : jsstring) : option jsval :=
  match parseValue (2 * List.length text + 2) text with
  | Some (v, r) => match skipWs r with [] => Some v | _ :: _ => None end
  | None => None
  end.

(** What a successful parse with some fuel guarantees: the rest is shorter
    than the input, and any larger budget gives the same result. *)
Definition stable (n : nat) : Prop :=
  (forall s v r,
     parseValue n s = Some (v, r) ->
     List.length r < List.length s /\
     forall m, 2 * List.length s <= m -> parseValue m s = Some (v, r)) /\
  (forall s acc v r,
     parseElements n s acc = Some (v, r) ->
     List.length r < List.length s /\
     forall m, 2 * List.length s + 1 <= m ->
               parseElements m s acc = Some (v, r)) /\
  (forall s acc v r,
     parseMembers n s acc = Some (v, r) ->
     List.length r < List.length s /\
     forall m, 2 * List.length s + 1 <= m ->
               parseMembers m s acc = Some (v, r)).

End Js.

Import Js.

(* ====================================================================== *)
(** * Web platform objects shared by both sides                            *)
(* ====================================================================== *)

Module Web.

(** A thrown [Error] object: the code reads [message] and [stack]. *)
Record JsError := { message : jsstring; stack : jsval }.

(** A computation that may throw. *)
Definition throws (A : Type) : Type := (JsError + A)%type.

Definition ret {A} (a : A) : throws A := inr a.
Definition throw {A} (e : JsError) : throws A := inl e.
Definition bind {A B} (c : throws A) (k : A -> throws B) : throws B :=
  match c with
  | inl e => inl e
  | inr a => k a
  end.

(** [try { c } catch (error) { h error }] *)
Definition try_catch {A} (c : throws A) (h : JsError -> A) : A :=
  match c with
  | inl e => h e
  | inr a => a
  end.

(** A [File] (a [Blob] with a name). *)
Record File := {
  name : jsstring;
  size : N;
  type : jsstring;
  bytes : list N
}.

(** What the engine chooses: the [stack] of an [Error] built with a given
    message, the [TypeError] for a faulty expression (named by its source
    text), and the [SyntaxError] of [JSON.parse] for a given text. *)
Record Engine := {
  stack_trace : jsstring -> jsval;
  type_error : jsstring -> JsError;
  syntax_error : jsstring -> JsError
}.

(** [new Error(msg)] *)
Definition new_Error (E : Engine) (msg : jsstring) : JsError :=
  {| message := msg; stack := stack_trace E msg |}.

(** [JSON.parse] as a throwing computation. *)
Definition JSON_parse_or_throw (E : Engine) (text : jsstring) : throws jsval :=
  match JSON_parse text with
  | Some v => ret v
  | None => throw (syntax_error E text)
  end.

(** [v.k], throwing on [null] and [undefined]. *)
Definition get (E : Engine) (expr : jsstring) (v : jsval) (k : jsstring)
  : throws jsval :=
  match getProp v k with
  | Some x => ret x
  | None => throw (type_error E expr)
  end.

End Web.

Import Web.

Declare Scope throws_scope.
Delimit Scope throws_scope with throws.
Notation "x <- c ;; k" := (bind c (fun x => k))
  (at level 61, c at next level, right associativity) : throws_scope.
Notation "c ;;; k" := (bind c (fun _ => k))
  (at level 61, right associativity) : throws_scope.

(* ====================================================================== *)
(** * The relay endpoint: netlify/functions/validate-document.ts           *)
(* ====================================================================== *)

Module Relay.

(** [process.env] *)
Record Env := {
  ANTHROPIC_API_KEY : option jsstring;
  LAUNCHDARKLY_CLIENT_SIDE_ID : option jsstring
}.

(** Truthiness of [process.env.X]: set and not the empty string. *)
Definition configured (v : option jsstring) : bool :=
  match v with
  | Some (_ :: _) => true
  | Some [] | None => false
  end.

(** ** The incoming request *)

Inductive FormDataEntryValue :=
| EntryString (s : jsstring)
| EntryFile (f : File).

Definition FormData := list (jsstring * FormDataEntryValue).

(** [formData.get(k)]: the first value under [k], or [null]. *)
Fixpoint FormData_get (k : jsstring) (fd : FormData)
  : option FormDataEntryValue :=
  match fd with
  | [] => None
  | (k', v) :: rest =>
      if jsstring_eqb k k' then Some v else FormData_get k rest
  end.

(** [formData] is the outcome of [await req.formData()], which rejects
    when the body is not a form body. *)
Record Request := {
  method : jsstring;
  formData : throws FormData
}.

(** ** The inference API *)

Inductive ContentParam :=
| TextParam (text : jsstring)
| DocumentParam (source_type media_type data : jsstring).

Record MessageParam := { role : jsstring; content_param : list ContentParam }.

Record MessageCreateParams := {
  model : jsstring;
  max_tokens : N;
  messages : list MessageParam;
  system : jsstring
}.

Inductive ContentBlock :=
| TextBlock (text : jsstring)
| OtherBlock (block_type : jsstring).

Record Usage := { input_tokens : Z; output_tokens : Z }.

Record Message := { content : list ContentBlock; usage : Usage }.

(** ** The outgoing response: [new Response(JSON.stringify(body), {status,
    headers})].  [body] is the value handed to [JSON.stringify]. *)
Record Response := {
  status : N;
  headers : list (jsstring * jsstring);
  body : jsval
}.

(** ** [Buffer.from(buffer).toString('base64')] *)

Definition b64char (n : N) : jschar :=
  (if n <? 26 then 65 + n
   else if n <? 52 then 97 + (n - 26)
   else if n <? 62 then 48 + (n - 52)
   else if n =? 62 then 43
   else 47)%N.

Fixpoint base64 (bs : list N) : jsstring :=
  match bs with
  | [] => []
  | [a] =>
      [b64char (a / 4); b64char ((a mod 4) * 16); 61; 61]%N
  | [a; b] =>
      [b64char (a / 4); b64char ((a mod 4) * 16 + b / 16);
       b64char ((b mod 16) * 4); 61]%N
  | a :: b :: c :: rest =>
      [b64char (a / 4); b64char ((a mod 4) * 16 + b / 16);
       b64char ((b mod 16) * 4 + c / 64); b64char (c mod 64)]%N
      ++ base64 rest
  end.

(** ** Stripping markdown code fences *)

Definition FENCE : jsstring := js "```".
Definition FENCE_JSON : jsstring := js "```json".

Definition stripFences (responseText : jsstring) : jsstring :=
  let cleanedText := trim responseText in
  if startsWith cleanedText FENCE_JSON then
    removeSuffix (LF :: FENCE) (removePrefix (FENCE_JSON ++ [LF]) cleanedText)
  else if startsWith cleanedText FENCE then
    removeSuffix (LF :: FENCE) (removePrefix (FENCE ++ [LF]) cleanedText)
  else cleanedText.

(** The fallback of the [catch (parseError)] branch. *)
Definition rawFallback (cleanedText : jsstring) : jsval :=
  JObject [(js "rawResponse", JString cleanedText);
           (js "parseError", JString (js "Could not parse JSON response"))].

Definition parseResult (cleanedText : jsstring) : jsval :=
  match JSON_parse cleanedText with
  | Some v => v
  | None => rawFallback cleanedText
  end.

Section Handler.

Local Open Scope throws_scope.

Variable E : Engine.
Variable env : Env.

(** The constant [SYSTEM_PROMPT]. *)
Variable SYSTEM_PROMPT : jsstring.

(** The feature-flag service: initialise, wait, read
    [enableEnhancedValidation], close. *)
Variable launchDarkly : jsstring -> throws bool.

(** [anthropic.messages.create] of a client built with the given key. *)
Variable messages_create : jsstring -> MessageCreateParams -> throws Message.

Definition headers_ : list (jsstring * jsstring) :=
  [(js "Access-Control-Allow-Origin", js "*");
   (js "Access-Control-Allow-Headers", js "Content-Type");
   (js "Access-Control-Allow-Methods", js "POST, OPTIONS");
   (js "Content-Type", js "application/json")].

Definition respond (st : N) (b : jsval) : Response :=
  {| status := st; headers := headers_; body := b |}.

Definition failure (msg : jsstring) : jsval :=
  JObject [(js "success", JBool false); (js "error", JString msg)].

(** The optional LaunchDarkly block; its own [try]/[catch] swallows every
    failure and the flag is not used afterwards. *)
Definition enhancedValidationEnabled : bool :=
  match LAUNCHDARKLY_CLIENT_SIDE_ID env with
  | Some (c :: id) => try_catch (launchDarkly (c :: id)) (fun _ => false)
  | Some [] | None => false
  end.

Definition createParams (file : File) : MessageCreateParams :=
  {| model := js "claude-3-5-sonnet-20241022";
     max_tokens := 4096;
     messages :=
       [{| role := js "user";
           content_param :=
             [TextParam (js "Please validate this shipping document and extract all key fields. Return ONLY valid JSON, no markdown formatting.");
              DocumentParam (js "base64") (type file) (base64 (bytes file))]
        |}];
     system := SYSTEM_PROMPT |}.

(** [message.content[0].type === "text" ? message.content[0].text : ""] *)
Definition responseTextOf (message : Message) : throws jsstring :=
  match content message with
  | [] => throw (type_error E (js "message.content[0].type"))
  | TextBlock text :: _ => ret text
  | OtherBlock _ :: _ => ret []
  end.

(** The body of the [try] block. *)
Definition attempt (req : Request) : throws Response :=
  apiKey <- match ANTHROPIC_API_KEY env with
            | Some (c :: k) => ret (c :: k)
            | Some [] | None =>
                throw (new_Error E (js "ANTHROPIC_API_KEY not configured"))
            end ;;
  let _flag := enhancedValidationEnabled in
  form <- formData req ;;
  match FormData_get (js "file") form with
  | None | Some (EntryString []) =>
      ret (respond 400 (failure (js "No file provided")))
  | Some (EntryString (_ :: _)) =>
      throw (type_error E (js "file.arrayBuffer"))
  | Some (EntryFile file) =>
      message <- messages_create apiKey (createParams file) ;;
      responseText <- responseTextOf message ;;
      let cleanedText := stripFences responseText in
      let result := parseResult cleanedText in
      ret (respond 200
             (JObject
                [(js "success", JBool true);
                 (js "result", result);
                 (js "usage",
                  JObject
                    [(js "inputTokens",
                      JNumber (input_tokens (usage message)) 0);
                     (js "outputTokens",
                      JNumber (output_tokens (usage message)) 0)])]))
  end.

(** The [catch (error)] block. *)
Definition onError (error : JsError) : Response :=
  respond 500
    (JObject
       [(js "success", JBool false);
        (js "error",
         or_else (JString (message error))
                 (JString (js "Internal server error")));
        (js "details", stack error)]).

Definition handler (req : Request) : Response :=
  if jsstring_eqb (method req) (js "OPTIONS") then
    respond 200 (JObject [(js "ok", JBool true)])
  else if negb (jsstring_eqb (method req) (js "POST")) then
    respond 405 (failure (js "Method not allowed"))
  else try_catch (attempt req) onError.

End Handler.

End Relay.

(* ====================================================================== *)
(** * What [fetch] hands back to the page                                  *)
(* ====================================================================== *)

Module Fetch.

(** The [Response] the page sees; [text] is the outcome of
    [await response.text()]. *)
Record Response := {
  status : N;
  statusText : jsstring;
  text : throws jsstring
}.

(** [response.ok]: the status is in the range 200-299. *)
Definition ok (r : Response) : bool :=
  ((200 <=? status r) && (status r <=? 299))%N.

(** The promise returned by [fetch] rejects (network failure) or is
    fulfilled with a response. *)
Inductive Result :=
| Rejected (e : JsError)
| Fulfilled (r : Response).

End Fetch.

(* ====================================================================== *)
(** * The upload component: src/components/FileUpload.tsx                  *)
(* ====================================================================== *)

Module Upload.

Inductive Status := success | error_.

(** The two shapes pushed onto [results]:
    [{fileName, status: 'success', result}] and
    [{fileName, status: 'error', error}]. *)
Inductive FileOutcome :=
| Succeeded (fileName : jsstring) (result : jsval)
| Failed (fileName : jsstring) (error : jsval).

Definition fileName (o : FileOutcome) : jsstring :=
  match o with Succeeded n _ | Failed n _ => n end.

Definition status (o : FileOutcome) : Status :=
  match o with Succeeded _ _ => success | Failed _ _ => error_ end.

(** Reading a field the object does not have gives [undefined]. *)
Definition result (o : FileOutcome) : jsval :=
  match o with Succeeded _ r => r | Failed _ _ => JUndefined end.

Definition error_of (o : FileOutcome) : jsval :=
  match o with Succeeded _ _ => JUndefined | Failed _ e => e end.

Record UploadState := {
  uploading : bool;
  error : option jsstring;
  results : list FileOutcome;
  currentFile : nat;
  totalFiles : nat
}.

(** The state of the component between renders; [fileInput] is the [value]
    of the input element behind [fileInputRef], when it is mounted. *)
Record Component := {
  files : list File;
  dragActive : bool;
  state : UploadState;
  fileInput : option jsstring
}.

Definition idle (err : option jsstring) (rs : list FileOutcome)
  : UploadState :=
  {| uploading := false; error := err; results := rs;
     currentFile := 0; totalFiles := 0 |}.

(** The arguments of the two [useState] calls. *)
Definition initialState : UploadState := idle None [].

Definition initial : Component :=
  {| files := []; dragActive := false; state := initialState;
     fileInput := Some [] |}.

(** ** Effects of a handler

    A handler queues state updates; React applies the queued updates, in
    order, when the handler returns or is suspended at an [await], and only
    then renders. *)
Inductive action :=
| SetFiles (fs : list File)
| SetDragActive (b : bool)
| SetState (f : UploadState -> UploadState)
| ClearFileInput.

Inductive step :=
| Do (a : action)
| Await.

Definition apply (c : Component) (a : action) : Component :=
  match a with
  | SetFiles fs =>
      {| files := fs; dragActive := dragActive c; state := state c;
         fileInput := fileInput c |}
  | SetDragActive b =>
      {| files := files c; dragActive := b; state := state c;
         fileInput := fileInput c |}
  | SetState f =>
      {| files := files c; dragActive := dragActive c; state := f (state c);
         fileInput := fileInput c |}
  | ClearFileInput =>
      {| files := files c; dragActive := dragActive c; state := state c;
         fileInput := match fileInput c with
                      | Some _ => Some []
                      | None => None
                      end |}
  end.

(** The component once all steps have been taken. *)
Fixpoint run (c : Component) (steps : list step) : Component :=
  match steps with
  | [] => c
  | Do a :: rest => run (apply c a) rest
  | Await :: rest => run c rest
  end.

(** The components a render can show: one at each suspension and one at
    the end. *)
Fixpoint renders (c : Component) (steps : list step) : list Component :=
  match steps with
  | [] => [c]
  | Do a :: rest => renders (apply c a) rest
  | Await :: rest => c :: renders c rest
  end.

Definition PDF : jsstring := js "application/pdf".

Definition isPdf (f : File) : bool := jsstring_eqb (type f) PDF.

Definition PDF_ONLY : jsstring := js "Please upload PDF files only".

(** ** Selecting files *)

Definition handleDrag (eventType : jsstring) : list step :=
  [Do (SetDragActive (jsstring_eqb eventType (js "dragenter")
                      || jsstring_eqb eventType (js "dragover")))].

(** [dropped] is [e.dataTransfer.files]. *)
Definition handleDrop (dropped : list File) : list step :=
  Do (SetDragActive false) ::
  let droppedFiles := filter isPdf dropped in
  match droppedFiles with
  | _ :: _ =>
      [Do (SetFiles droppedFiles); Do (SetState (fun _ => idle None []))]
  | [] => [Do (SetState (fun _ => idle (Some PDF_ONLY) []))]
  end.

(** [selected] is [e.target.files], which may be [null]. *)
Definition handleFileChange (selected : option (list File)) : list step :=
  let selectedFiles :=
    filter isPdf (match selected with Some fs => fs | None => [] end) in
  match selectedFiles with
  | _ :: _ =>
      [Do (SetFiles selectedFiles); Do (SetState (fun _ => idle None []))]
  | [] => [Do (SetState (fun _ => idle (Some PDF_ONLY) []))]
  end.

Definition handleReset : list step :=
  [Do (SetFiles []); Do (SetState (fun _ => idle None []));
   Do ClearFileInput].

(** ** Uploading *)

Section Upload.

Local Open Scope throws_scope.

Variable E : Engine.

(** The network: the outcome of the [i]-th call of [fetch], which posts
    the given file. *)
Variable fetch : nat -> File -> Fetch.Result.

(** The body of the [try] block for one file, given how its [fetch] call
    ended. *)
Definition attempt (file : File) (r : Fetch.Result) : throws FileOutcome :=
  response <- match r with
              | Fetch.Rejected e => throw e
              | Fetch.Fulfilled resp => ret resp
              end ;;
  (if Fetch.ok response then ret tt
   else throw (new_Error E
                 (js "HTTP " ++ N_to_js (Fetch.status response) ++ js ": "
                  ++ Fetch.statusText response))) ;;;
  text <- Fetch.text response ;;
  match text with
  | [] => throw (new_Error E (js "Empty response from server"))
  | _ :: _ => ret tt
  end ;;;
  data <- JSON_parse_or_throw E text ;;
  ok <- get E (js "data.success") data (js "success") ;;
  if truthy ok then
    res <- get E (js "data.result") data (js "result") ;;
    ret (Succeeded (name file) res)
  else
    err <- get E (js "data.error") data (js "error") ;;
    ret (Failed (name file) (or_else err (JString (js "Validation failed")))).

(** One iteration of the loop body: the [try] and its [catch]. *)
Definition uploadOne (file : File) (r : Fetch.Result) : FileOutcome :=
  try_catch (attempt file r)
    (fun error =>
       Failed (name file)
         (or_else (JString (message error)) (JString (js "Upload failed")))).

(** The suspensions of one iteration: at [fetch], and at [response.text()]
    when it is reached. *)
Definition awaits (r : Fetch.Result) : list step :=
  match r with
  | Fetch.Rejected _ => [Await]
  | Fetch.Fulfilled resp => if Fetch.ok resp then [Await; Await] else [Await]
  end.

Definition withCurrentFile (n : nat) (prev : UploadState) : UploadState :=
  {| uploading := uploading prev; error := error prev;
     results := results prev; currentFile := n;
     totalFiles := totalFiles prev |}.

(** [for (let i = ...; i < files.length; i++)], entered at index [i] with
    [rest] still to do and [results] pushed so far: the steps taken and the
    final [results] array. *)
Fixpoint uploadLoop (i : nat) (rest : list File) (results : list FileOutcome)
  : list step * list FileOutcome :=
  match rest with
  | [] => ([], results)
  | file :: rest' =>
      let r := fetch i file in
      let '(steps, final) :=
        uploadLoop (S i) rest' (results ++ [uploadOne file r]) in
      (Do (SetState (withCurrentFile (i + 1))) :: awaits r ++ steps, final)
  end.

(** [handleUpload] closes over the [files] of the render it was created
    in. *)
Definition handleUpload (c : Component) : list step :=
  match files c with
  | [] => []
  | _ :: _ =>
      let '(steps, results) := uploadLoop 0 (files c) [] in
      Do (SetState (fun _ =>
            {| uploading := true; error := None; results := [];
               currentFile := 0; totalFiles := List.length (files c) |}))
      :: steps
      ++ [Do (SetState (fun _ => idle None results))]
  end.

(** The [results] array the loop builds from index [i] on. *)
Fixpoint outcomes (i : nat) (rest : list File) : list FileOutcome :=
  match rest with
  | [] => []
  | file :: rest' => uploadOne file (fetch i file) :: outcomes (S i) rest'
  end.

End Upload.

(** ** How a relay call ends, seen from the page *)

(** The call fails: [fetch] or the reading of the body is rejected (network
    error), the status is outside 200-299, the body is empty, or the body
    is not JSON text. *)
Definition fails (r : Fetch.Result) : bool :=
  match r with
  | Fetch.Rejected _ => true
  | Fetch.Fulfilled resp =>
      negb (Fetch.ok resp)
      || match Fetch.text resp with
         | inl _ => true
         | inr [] => true
         | inr (c :: t) =>
             match JSON_parse (c :: t) with
             | None => true
             | Some _ => false
             end
         end
  end.

(** The call succeeds: a 2xx response whose body is the JSON text of an
    envelope with a truthy [success]. *)
Definition succeeds (r : Fetch.Result) : bool :=
  match r with
  | Fetch.Rejected _ => false
  | Fetch.Fulfilled resp =>
      Fetch.ok resp
      && match Fetch.text resp with
         | inl _ => false
         | inr [] => false
         | inr (c :: t) =>
             match JSON_parse (c :: t) with
             | None => false
             | Some data =>
                 match getProp data (js "success") with
                 | Some ok => truthy ok
                 | None => false
                 end
             end
         end
  end.

(** A selection has an entry that is not a PDF. *)
Definition hasNonPdf (selection : list File) : Prop :=
  exists f, In f selection /\ type f <> PDF.

End Upload.

(* ====================================================================== *)
(** * Shapes of replies and answers of the relay                            *)
(* ====================================================================== *)

Module RelayShapes.

Import Relay.

(** A fenced block: the opening fence line, the body, the closing fence
    line. *)
Definition fenced (opening inner : jsstring) : jsstring :=
  opening ++ [LF] ++ inner ++ [LF] ++ FENCE.

(** The body of the status 200 answer of a POST. *)
Definition successBody (result : jsval) (message : Message) : jsval :=
  JObject
    [(js "success", JBool true);
     (js "result", result);
     (js "usage",
      JObject
        [(js "inputTokens", JNumber (input_tokens (usage message)) 0);
         (js "outputTokens", JNumber (output_tokens (usage message)) 0)])].

(** The body the [catch] block builds from a thrown error:
    [error.message || "Internal server error"] and [error.stack]. *)
Definition errorBody (e : JsError) : jsval :=
  JObject
    [(js "success", JBool false);
     (js "error",
      JString (match message e with
               | [] => js "Internal server error"
               | c :: m => c :: m
               end));
     (js "details", stack e)].

End RelayShapes.

(* ====================================================================== *)
(** * What the upload component shows: the JSX of FileUpload.tsx           *)
(* ====================================================================== *)

Module UploadView.

Import Upload.







(** The states at which a handler is suspended, in order: what is rendered
    before the handler is done. *)
Fixpoint suspensions (c : Component) (steps : list step) : list Component :=
  match steps with
  | [] => []
  | Do a :: rest => suspensions (apply c a) rest
  | Await :: rest => c :: suspensions c rest
  end.





End UploadView.

(* ====================================================================== *)
(** * The result display: src/components/ValidationResult.tsx              *)
(* ====================================================================== *)

Module ValidationResult.

Section Display.

Local Open Scope throws_scope.

Variable E : Engine.

(** [getStatusColor]: a [switch] on the status, compared with [===]. *)
Definition getStatusColor (status : jsval) : jsstring :=
  match status with
  | JString s =>
      if jsstring_eqb s (js "PASS") then
        js "bg-green-100 text-green-800 border-green-200"
      else if jsstring_eqb s (js "WARNING") then
        js "bg-yellow-100 text-yellow-800 border-yellow-200"
      else if jsstring_eqb s (js "FAIL") then
        js "bg-red-100 text-red-800 border-red-200"
      else js "bg-gray-100 text-gray-800 border-gray-200"
  | _ => js "bg-gray-100 text-gray-800 border-gray-200"
  end.

(** [getSeverityColor] *)
Definition getSeverityColor (severity : jsval) : jsstring :=
  match severity with
  | JString s =>
      if jsstring_eqb s (js "ERROR") then
        js "bg-red-50 border-red-300 text-red-900"
      else js "bg-yellow-50 border-yellow-300 text-yellow-900"
  | _ => js "bg-yellow-50 border-yellow-300 text-yellow-900"
  end.

(** The test of the first [if]:
    [result.rawResponse && !result.validationStatus]. *)
Definition showsRaw (result : jsval) : throws bool :=
  raw <- get E (js "result.rawResponse") result (js "rawResponse") ;;
  if truthy raw then
    st <- get E (js "result.validationStatus") result
            (js "validationStatus") ;;
    ret (negb (truthy st))
  else ret false.

(** The badge of the structured view: its colour classes and its content,
    [result.validationStatus || 'COMPLETED']. *)
Definition badge (result : jsval) : throws (jsstring * jsval) :=
  st <- get E (js "result.validationStatus") result (js "validationStatus") ;;
  ret (getStatusColor st, or_else st (JString (js "COMPLETED"))).

End Display.

(** [key.replace(/([A-Z])/g, ' $1')]: a space before every capital letter
    A-Z. *)
Definition isCapital (c : jschar) : bool := ((65 <=? c) && (c <=? 90))%N.

Fixpoint spaceCapitals (key : jsstring) : jsstring :=
  match key with
  | [] => []
  | c :: rest =>
      if isCapital c then 32%N :: c :: spaceCapitals rest
      else c :: spaceCapitals rest
  end.

(** The caption of an extracted field:
    [key.replace(/([A-Z])/g, ' $1').trim()]. *)
Definition fieldCaption (key : jsstring) : jsstring :=
  trim (spaceCapitals key).

End ValidationResult.

(* ====================================================================== *)
(** * The flag endpoint: netlify/functions/feature-flags.ts                *)
(* ====================================================================== *)

Module FeatureFlags.

(** [header] is [req.headers.get]. *)
Record Request := {
  method : jsstring;
  header : jsstring -> option jsstring
}.

Record UserContext := {
  kind : jsstring;
  key : jsstring;
  email : option jsstring
}.

(** The LaunchDarkly client: each field is what the call of that name
    does. *)
Record Client := {
  waitForInitialization : throws unit;
  variation : jsstring -> UserContext -> jsval -> throws jsval;
  close : throws unit
}.

(** [h || fallback] for a header value. *)
Definition headerOr {A} (h : option jsstring) (some : jsstring -> A)
           (fallback : A) : A :=
  match h with
  | Some (c :: v) => some (c :: v)
  | Some [] | None => fallback
  end.

Section Handler.

Local Open Scope throws_scope.

Variable env : Relay.Env.

(** [initLD] of the SDK. *)
Variable initLD : jsstring -> throws Client.

Definition headers_ : list (jsstring * jsstring) :=
  [(js "Access-Control-Allow-Origin", js "*");
   (js "Access-Control-Allow-Headers", js "Content-Type");
   (js "Access-Control-Allow-Methods", js "GET, POST, OPTIONS");
   (js "Content-Type", js "application/json")].

Definition respond (st : N) (b : jsval) : Relay.Response :=
  {| Relay.status := st; Relay.headers := headers_; Relay.body := b |}.

Definition userContextOf (req : Request) : UserContext :=
  {| kind := js "user";
     key := headerOr (header req (js "x-user-id")) (fun v => v)
              (js "anonymous-user");
     email := headerOr (header req (js "x-user-email")) Some None |}.

(** The body of the [try] block. *)
Definition attempt (req : Request) : throws Relay.Response :=
  match Relay.LAUNCHDARKLY_CLIENT_SIDE_ID env with
  | Some [] | None =>
      ret (respond 500
             (JObject
                [(js "success", JBool false);
                 (js "error",
                  JString (js "LAUNCHDARKLY_CLIENT_SIDE_ID not configured"))]))
  | Some (c :: id) =>
      client <- initLD (c :: id) ;;
      waitForInitialization client ;;;
      let userContext := userContextOf req in
      newFeatureEnabled <-
        variation client (js "enableMyNewFeature") userContext
          (JBool false) ;;
      enhancedValidationEnabled <-
        variation client (js "enableEnhancedValidation") userContext
          (JBool false) ;;
      close client ;;;
      ret (respond 200
             (JObject
                [(js "success", JBool true);
                 (js "flags",
                  JObject
                    [(js "enableMyNewFeature", newFeatureEnabled);
                     (js "enableEnhancedValidation",
                      enhancedValidationEnabled)]);
                 (js "user", JString (key userContext))]))
  end.

(** The [catch (error)] block. *)
Definition onError (error : JsError) : Relay.Response :=
  respond 500
    (JObject
       [(js "success", JBool false);
        (js "error",
         or_else (JString (message error))
                 (JString (js "Internal server error")));
        (js "details", stack error)]).

Definition handler (req : Request) : Relay.Response :=
  if jsstring_eqb (method req) (js "OPTIONS") then
    respond 200 (JObject [(js "ok", JBool true)])
  else try_catch (attempt req) onError.

End Handler.

End FeatureFlags.

(* ====================================================================== *)
(** * Sample data                                                          *)
(* ====================================================================== *)

(** A JSON string literal. *)
Definition quoted (s : string) : jsstring := [QUOTE] ++ js s ++ [QUOTE].

Definition pdfNamed (n : string) : File :=
  {| name := js n; size := 3; type := js "application/pdf";
     bytes := [77; 97; 110]%N |}.

Definition samplePdf : File := pdfNamed "invoice.pdf".

Definition sampleText : File :=
  {| name := js "notes.txt"; size := 2; type := js "text/plain";
     bytes := [104; 105]%N |}.

Definition mixedSelection : list File := [samplePdf; sampleText].

(** A concrete engine, used to run the model on examples. *)
Definition sampleEngine : Engine :=
  {| stack_trace := fun msg => JString (js "Error: " ++ msg);
     type_error := fun expr =>
       {| message := js "Cannot read " ++ expr; stack := JUndefined |};
     syntax_error := fun _ =>
       {| message := js "Unexpected token"; stack := JUndefined |} |}.

(** A network on which the calls end in turn: a success envelope, a
    rejected [fetch], a 500, an empty 200, a 200 with a body that is not
    JSON; every later call gets a success envelope without [result]. *)
Definition replied (st : N) (reason : string) (b : jsstring) : Fetch.Result :=
  Fetch.Fulfilled
    {| Fetch.status := st; Fetch.statusText := js reason;
       Fetch.text := ret b |}.

Definition sampleNetwork (i : nat) (_ : File) : Fetch.Result :=
  match i with
  | 0 => replied 200 "OK"
           (js "{" ++ quoted "success" ++ js ":true," ++ quoted "result"
            ++ js ":{" ++ quoted "validationStatus" ++ js ":"
            ++ quoted "PASS" ++ js "}}")
  | 1 => Fetch.Rejected
           {| message := js "Failed to fetch"; stack := JUndefined |}
  | 2 => replied 500 "Internal Server Error" (js "{}")
  | 3 => replied 200 "OK" []
  | 4 => replied 200 "OK" (js "<html>")
  | _ => replied 200 "OK"
           (js "{" ++ quoted "success" ++ js ":1," ++ quoted "result"
            ++ js ":null}")
  end.

Definition sampleBatch : Upload.Component :=
  {| Upload.files :=
       [samplePdf; pdfNamed "packing.pdf"; pdfNamed "hbl.pdf";
        pdfNamed "empty.pdf"; pdfNamed "garbled.pdf"; pdfNamed "last.pdf"];
     Upload.dragActive := false;
     Upload.state := Upload.initialState;
     Upload.fileInput := Some (js "C:\fakepath\invoice.pdf") |}.

(** The two sample texts of the fence-stripping property. *)
Definition objectA1 : jsstring :=
  js "{" ++ [QUOTE] ++ js "a" ++ [QUOTE] ++ js ":1}".

Definition fencedA1 : jsstring :=
  js "```json" ++ [LF] ++ objectA1 ++ [LF] ++ js "```".

Definition envMissing : Relay.Env :=
  {| Relay.ANTHROPIC_API_KEY := None; Relay.LAUNCHDARKLY_CLIENT_SIDE_ID := None |}.

Definition envReady : Relay.Env :=
  {| Relay.ANTHROPIC_API_KEY := Some (js "sk-ant-test");
     Relay.LAUNCHDARKLY_CLIENT_SIDE_ID := Some (js "ld-client") |}.

Definition flagsDown : jsstring -> throws bool :=
  fun _ => throw {| message := js "timeout"; stack := JUndefined |}.

Definition replyNotJson : Relay.Message :=
  {| Relay.content := [Relay.TextBlock (js "not json")];
     Relay.usage := {| Relay.input_tokens := 12; Relay.output_tokens := 3 |} |}.

Definition apiReplies (m : Relay.Message)
  : jsstring -> Relay.MessageCreateParams -> throws Relay.Message :=
  fun _ _ => ret m.

Definition request (verb : jsstring) (form : Relay.FormData) : Relay.Request :=
  {| Relay.method := verb; Relay.formData := ret form |}.

Definition formWithPdf : Relay.FormData := [(js "file", Relay.EntryFile samplePdf)].

Definition formWithoutFile : Relay.FormData :=
  [(js "comment", Relay.EntryString (js "hello"))].

(** ** Further sample data *)


Definition replyToolUse : Relay.Message :=
  {| Relay.content := [Relay.OtherBlock (js "tool_use")];
     Relay.usage := {| Relay.input_tokens := 20; Relay.output_tokens := 0 |} |}.

Definition replyWithoutContent : Relay.Message :=
  {| Relay.content := [];
     Relay.usage := {| Relay.input_tokens := 20; Relay.output_tokens := 0 |} |}.

Definition overloaded : JsError :=
  {| message := js "overloaded_error"; stack := JString (js "at create") |}.

Definition unnamedError : JsError :=
  {| message := []; stack := JUndefined |}.

Definition apiDown
  : jsstring -> Relay.MessageCreateParams -> throws Relay.Message :=
  fun _ _ => throw overloaded.

(** An API that only answers the key of [envReady]. *)
Definition apiForOneKey
  : jsstring -> Relay.MessageCreateParams -> throws Relay.Message :=
  fun apiKey _ =>
    if jsstring_eqb apiKey (js "sk-ant-test") then ret replyNotJson
    else throw overloaded.

Definition unreadableRequest : Relay.Request :=
  {| Relay.method := js "POST"; Relay.formData := throw unnamedError |}.

Definition formWithTextFile : Relay.FormData :=
  [(js "file", Relay.EntryString (js "hello"));
   (js "file", Relay.EntryFile samplePdf)].

Definition formWithEmptyFile : Relay.FormData :=
  [(js "file", Relay.EntryString [])].

Definition serverError : Fetch.Response :=
  {| Fetch.status := 500; Fetch.statusText := js "Internal Server Error";
     Fetch.text :=
       ret (js "{" ++ quoted "success" ++ js ":false," ++ quoted "error"
            ++ js ":" ++ quoted "ANTHROPIC_API_KEY not configured"
            ++ js "}") |}.

Definition okWith (b : jsstring) : Fetch.Response :=
  {| Fetch.status := 200; Fetch.statusText := js "OK"; Fetch.text := ret b |}.

Definition flagClient : FeatureFlags.Client :=
  {| FeatureFlags.waitForInitialization := ret tt;
     FeatureFlags.variation := fun flag _ fallback =>
       if jsstring_eqb flag (js "enableMyNewFeature") then ret (JBool true)
       else ret fallback;
     FeatureFlags.close := ret tt |}.


Definition flagRequest (verb : jsstring) (user : option jsstring)
  : FeatureFlags.Request :=
  {| FeatureFlags.method := verb;
     FeatureFlags.header := fun h =>
       if jsstring_eqb h (js "x-user-id") then user else None |}.

(* ====================================================================== *)
(** * Facts about the platform model                                       *)
(* ====================================================================== *)

Module JsFacts.

Lemma jsstring_eqb_eq a b : jsstring_eqb a b = true <-> a = b.
Proof.
  revert b; induction a as [|x a IH]; intros [|y b]; simpl;
    try (split; congruence).
  rewrite andb_true_iff, N.eqb_eq, IH. split.
  - intros [-> ->]; reflexivity.
  - intros H; injection H; auto.
Qed.

Lemma jsstring_eqb_refl a : jsstring_eqb a a = true.
Proof. apply jsstring_eqb_eq; reflexivity. Qed.

Lemma jsstring_eqb_neq a b : jsstring_eqb a b = false <-> a <> b.
Proof.
  rewrite <- jsstring_eqb_eq. destruct (jsstring_eqb a b); split;
    congruence.
Qed.

Lemma or_else_string_nonempty (m fallback : jsstring) :
  fallback <> [] ->
  exists msg, or_else (JString m) (JString fallback) = JString msg /\
              msg <> [].
Proof.
  intros Hf. unfold or_else. destruct m as [|c m]; simpl.
  - exists fallback; auto.
  - exists (c :: m); split; [reflexivity | discriminate].
Qed.

End JsFacts.

Import JsFacts.

(** ** The parser and its fuel *)

Module JsonFacts.

Lemma skipWs_length s : List.length (skipWs s) <= List.length s.
Proof.
  induction s as [|c s IH]; simpl; [lia|].
  destruct (isJsonWs c); simpl; lia.
Qed.

Lemma stripPrefix_length p s r :
  stripPrefix p s = Some r -> List.length r <= List.length s.
Proof.
  revert s; induction p as [|a p IH]; intros [|b s]; simpl;
    try discriminate.
  - intros [= <-]; simpl; lia.
  - intros [= <-]; simpl; lia.
  - destruct (N.eqb a b); [|discriminate].
    intros H; apply IH in H; lia.
Qed.

Lemma parseString_length s acc k r :
  parseString s acc = Some (k, r) -> List.length r < List.length s.
Proof.
  remember (List.length s) as n eqn:Hn.
  revert s acc Hn. induction n as [n IH] using lt_wf_ind.
  intros [|c s] acc Hn; cbn [parseString]; [discriminate|].
  simpl in Hn.
  destruct (N.eqb c QUOTE).
  { intros [= _ <-]. lia. }
  destruct (isc "\" c).
  - destruct s as [|e r1]; [discriminate|].
    destruct (isc "u" e).
    + destruct r1 as [|h1 [|h2 [|h3 [|h4 r2]]]]; try discriminate.
      destruct (hexVal h1), (hexVal h2), (hexVal h3), (hexVal h4);
        try discriminate.
      intros H. eapply IH in H; [| |reflexivity]; simpl in *; lia.
    + destruct (escapeChar e); [|discriminate].
      intros H. eapply IH in H; [| |reflexivity]; simpl in *; lia.
  - destruct (c <? 32)%N; [discriminate|].
    intros H. eapply IH in H; [| |reflexivity]; simpl in *; lia.
Qed.

Lemma digits_length s acc count v k r :
  digits s acc count = (v, k, r) -> List.length r <= List.length s.
Proof.
  revert acc count; induction s as [|c s IH]; intros acc count; simpl.
  - intros [= _ _ <-]; simpl; lia.
  - destruct (isDigit c).
    + intros H; apply IH in H; lia.
    + intros [= _ _ <-]; simpl; lia.
Qed.

Lemma parseNumber_length s v r :
  parseNumber s = Some (v, r) -> List.length r < List.length s.
Proof.
  unfold parseNumber.
  destruct (parseSign s) as [neg s1] eqn:Hsign.
  assert (H1 : List.length s1 <= List.length s).
  { unfold parseSign in Hsign. destruct s as [|c t].
    - injection Hsign as _ <-. simpl; lia.
    - destruct (isc "-" c); injection Hsign as _ <-; simpl; lia. }
  destruct (parseInt s1) as [[n s2]|] eqn:Hint; [|discriminate].
  assert (H2 : List.length s2 < List.length s1).
  { unfold parseInt in Hint. destruct s1 as [|c t]; [discriminate|].
    destruct (isc "0" c).
    - injection Hint as _ <-. simpl; lia.
    - destruct (isDigit c) eqn:Hd; [|discriminate].
      cbn [digits] in Hint. rewrite Hd in Hint.
      destruct (digits t _ 1) as [[n' k] r'] eqn:Hdig.
      injection Hint as _ <-. apply digits_length in Hdig. simpl; lia. }
  destruct (parseFrac n s2) as [[[m e] s3]|] eqn:Hfrac; [|discriminate].
  assert (H3 : List.length s3 <= List.length s2).
  { unfold parseFrac in Hfrac. destruct s2 as [|c t].
    - injection Hfrac as _ _ <-. simpl; lia.
    - destruct (isc "." c).
      + destruct (digits t n 0) as [[m' k] r'] eqn:Hdig.
        apply digits_length in Hdig.
        destruct k; [discriminate|]. injection Hfrac as _ _ <-.
        simpl; lia.
      + injection Hfrac as _ _ <-. simpl; lia. }
  destruct (parseExp s3) as [[x s4]|] eqn:Hexp; [|discriminate].
  assert (H4 : List.length s4 <= List.length s3).
  { unfold parseExp in Hexp. destruct s3 as [|c t].
    - injection Hexp as _ <-. simpl; lia.
    - destruct (isc "e" c || isc "E" c).
      + assert (Hr1 : forall b r1,
                  match t with
                  | d :: r0 =>
                      if isc "-" d then (true, r0)
                      else if isc "+" d then (false, r0)
                      else (false, t)
                  | [] => (false, t)
                  end = (b, r1) -> List.length r1 <= List.length t).
        { intros b r1. destruct t as [|d r0].
          - intros [= _ <-]; simpl; lia.
          - destruct (isc "-" d); [intros [= _ <-]; simpl; lia|].
            destruct (isc "+" d); intros [= _ <-]; simpl; lia. }
        destruct (match t with [] => _ | _ :: _ => _ end) as [b r1].
        specialize (Hr1 b r1 eq_refl).
        destruct (digits r1 0 0) as [[x' k] r'] eqn:Hdig.
        apply digits_length in Hdig.
        destruct k; [discriminate|]. injection Hexp as _ <-.
        simpl; lia.
      + injection Hexp as _ <-. simpl; lia. }
  intros [= _ <-]. lia.
Qed.

Lemma parseScalar_length c t v r :
  parseScalar c t = Some (v, r) -> List.length r <= List.length t.
Proof.
  unfold parseScalar.
  destruct (N.eqb c QUOTE).
  { destruct (parseString t []) as [[str r']|] eqn:Hs; [|discriminate].
    intros [= _ <-]. apply parseString_length in Hs. lia. }
  destruct (isc "t" c).
  { destruct (stripPrefix (js "rue") t) as [r'|] eqn:Hs; [|discriminate].
    intros [= _ <-]. apply stripPrefix_length in Hs. lia. }
  destruct (isc "f" c).
  { destruct (stripPrefix (js "alse") t) as [r'|] eqn:Hs; [|discriminate].
    intros [= _ <-]. apply stripPrefix_length in Hs. lia. }
  destruct (isc "n" c).
  { destruct (stripPrefix (js "ull") t) as [r'|] eqn:Hs; [|discriminate].
    intros [= _ <-]. apply stripPrefix_length in Hs. lia. }
  intros H. apply parseNumber_length in H. simpl in H. lia.
Qed.

Lemma parse_stable n : stable n.
Proof.
  induction n as [|n (IHv & IHe & IHm)]; [repeat split; discriminate|].
  split; [|split].
  - intros s v r. cbn [parseValue].
    pose proof (skipWs_length s) as Hs.
    destruct (skipWs s) as [|c t] eqn:Hws; [discriminate|]. simpl in Hs.
    pose proof (skipWs_length t) as Ht.
    destruct (isc "{" c) eqn:Hobj; [|destruct (isc "[" c) eqn:Harr].
    + destruct (skipWs t) as [|d r'] eqn:Hws2; [discriminate|].
      simpl in Ht. destruct (isc "}" d) eqn:Hclose.
      * intros [= <- <-]. split; [lia|]. intros [|m] Hm; [lia|].
        cbn [parseValue]. rewrite Hws, Hobj, Hws2, Hclose. reflexivity.
      * intros H. apply IHm in H as [Hlen Hfuel]. split; [lia|].
        intros [|m] Hm; [lia|].
        cbn [parseValue]. rewrite Hws, Hobj, Hws2, Hclose.
        apply Hfuel. lia.
    + destruct (skipWs t) as [|d r'] eqn:Hws2; [discriminate|].
      simpl in Ht. destruct (isc "]" d) eqn:Hclose.
      * intros [= <- <-]. split; [lia|]. intros [|m] Hm; [lia|].
        cbn [parseValue]. rewrite Hws, Hobj, Harr, Hws2, Hclose.
        reflexivity.
      * intros H. apply IHe in H as [Hlen Hfuel]. split; [lia|].
        intros [|m] Hm; [lia|].
        cbn [parseValue]. rewrite Hws, Hobj, Harr, Hws2, Hclose.
        apply Hfuel. lia.
    + intros H. pose proof (parseScalar_length _ _ _ _ H) as Hlen.
      split; [lia|]. intros [|m] Hm; [lia|].
      cbn [parseValue]. rewrite Hws, Hobj, Harr. exact H.
  - intros s acc v r. cbn [parseElements].
    destruct (parseValue n s) as [[v1 r1]|] eqn:Hv; [|discriminate].
    apply IHv in Hv as [Hlen1 Hfuel1].
    pose proof (skipWs_length r1) as Hr1.
    destruct (skipWs r1) as [|c r'] eqn:Hws; [discriminate|]. simpl in Hr1.
    destruct (isc "," c) eqn:Hcomma; [|destruct (isc "]" c) eqn:Hclose].
    + intros H. apply IHe in H as [Hlen Hfuel]. split; [lia|].
      intros [|m] Hm; [lia|].
      cbn [parseElements]. rewrite Hfuel1 by lia. rewrite Hws, Hcomma.
      apply Hfuel. lia.
    + intros [= <- <-]. split; [lia|]. intros [|m] Hm; [lia|].
      cbn [parseElements]. rewrite Hfuel1 by lia.
      rewrite Hws, Hcomma, Hclose. reflexivity.
    + discriminate.
  - intros s acc v r. cbn [parseMembers].
    pose proof (skipWs_length s) as Hs.
    destruct (skipWs s) as [|q r0] eqn:Hws; [discriminate|]. simpl in Hs.
    destruct (N.eqb q QUOTE) eqn:Hq; [|discriminate].
    destruct (parseString r0 []) as [[k r1]|] eqn:Hk; [|discriminate].
    pose proof (parseString_length _ _ _ _ Hk) as Hlenk.
    pose proof (skipWs_length r1) as Hr1.
    destruct (skipWs r1) as [|c r2] eqn:Hws1; [discriminate|].
    simpl in Hr1.
    destruct (isc ":" c) eqn:Hcolon; [|discriminate].
    destruct (parseValue n r2) as [[v1 r3]|] eqn:Hv; [|discriminate].
    apply IHv in Hv as [Hlen3 Hfuel3].
    pose proof (skipWs_length r3) as Hr3.
    destruct (skipWs r3) as [|d r4] eqn:Hws3; [discriminate|].
    simpl in Hr3.
    destruct (isc "," d) eqn:Hcomma; [|destruct (isc "}" d) eqn:Hclose].
    + intros H. apply IHm in H as [Hlen Hfuel]. split; [lia|].
      intros [|m] Hm; [lia|].
      cbn [parseMembers]. rewrite Hws, Hq, Hk, Hws1, Hcolon.
      rewrite Hfuel3 by lia. rewrite Hws3, Hcomma. apply Hfuel. lia.
    + intros [= <- <-]. split; [lia|]. intros [|m] Hm; [lia|].
      cbn [parseMembers]. rewrite Hws, Hq, Hk, Hws1, Hcolon.
      rewrite Hfuel3 by lia. rewrite Hws3, Hcomma, Hclose. reflexivity.
    + discriminate.
Qed.

(** No budget finds a parse that the budget of [JSON_parse] misses. *)
Theorem JSON_parse_fuel_enough fuel text v r :
  parseValue fuel text = Some (v, r) ->
  parseValue (2 * List.length text + 2) text = Some (v, r).
Proof.
  intros H. apply (proj1 (parse_stable fuel)) in H as [_ Hfuel].
  apply Hfuel. lia.
Qed.

Corollary JSON_parse_None_any_fuel fuel text :
  JSON_parse text = None ->
  match parseValue fuel text with
  | Some (_, r) => skipWs r <> []
  | None => True
  end.
Proof.
  unfold JSON_parse. intros Hnone.
  destruct (parseValue fuel text) as [[v r]|] eqn:H; [|exact I].
  rewrite (JSON_parse_fuel_enough _ _ _ _ H) in Hnone.
  destruct (skipWs r); [discriminate Hnone | discriminate].
Qed.

End JsonFacts.


(* ====================================================================== *)
(** * Properties of the relay endpoint                                     *)
(* ====================================================================== *)

Module RelayFacts.

Import Relay.

Example base64_Man : base64 [77; 97; 110]%N = js "TWFu".
Proof. reflexivity. Qed.

Example base64_Ma : base64 [77; 97]%N = js "TWE=".
Proof. reflexivity. Qed.

Example base64_M : base64 [77]%N = js "TQ==".
Proof. reflexivity. Qed.

Lemma FormData_get_absent key (fd : FormData) :
  ~ In key (map fst fd) -> FormData_get key fd = None.
Proof.
  induction fd as [|[k v] fd IH]; cbn [FormData_get map fst In]; intros H;
    [reflexivity|].
  destruct (jsstring_eqb key k) eqn:Hk.
  - apply jsstring_eqb_eq in Hk. exfalso; apply H; left; auto.
  - apply IH. intros Hin; apply H; right; exact Hin.
Qed.

Section HandlerFacts.

Variable E : Engine.
Variable env : Env.
Variable SYSTEM_PROMPT : jsstring.
Variable launchDarkly : jsstring -> throws bool.
Variable messages_create : jsstring -> MessageCreateParams -> throws Message.

Local Abbreviation handle :=
  (handler E env SYSTEM_PROMPT launchDarkly messages_create).
Local Abbreviation try_body :=
  (attempt E env SYSTEM_PROMPT launchDarkly messages_create).

Lemma handler_POST req :
  method req = js "POST" -> handle req = try_catch (try_body req) onError.
Proof.
  intros H. unfold handler. rewrite H. reflexivity.
Qed.

Lemma attempt_not_configured req :
  configured (ANTHROPIC_API_KEY env) = false ->
  try_body req = throw (new_Error E (js "ANTHROPIC_API_KEY not configured")).
Proof.
  unfold attempt, configured.
  destruct (ANTHROPIC_API_KEY env) as [[|c k]|]; intros H;
    try discriminate; reflexivity.
Qed.

Lemma handler_not_configured req :
  method req = js "POST" ->
  configured (ANTHROPIC_API_KEY env) = false ->
  handle req =
  respond 500
    (JObject
       [(js "success", JBool false);
        (js "error", JString (js "ANTHROPIC_API_KEY not configured"));
        (js "details",
         stack_trace E (js "ANTHROPIC_API_KEY not configured"))]).
Proof.
  intros Hm Hk. rewrite (handler_POST _ Hm), (attempt_not_configured _ Hk).
  reflexivity.
Qed.

Lemma attempt_configured req apiKey :
  ANTHROPIC_API_KEY env = Some apiKey -> apiKey <> [] ->
  try_body req =
  bind (formData req) (fun form =>
    match FormData_get (js "file") form with
    | None | Some (EntryString []) =>
        ret (respond 400 (failure (js "No file provided")))
    | Some (EntryString (_ :: _)) =>
        throw (type_error E (js "file.arrayBuffer"))
    | Some (EntryFile file) =>
        bind (messages_create apiKey (createParams SYSTEM_PROMPT file))
          (fun message =>
             bind (responseTextOf E message) (fun responseText =>
               ret (respond 200
                 (JObject
                   [(js "success", JBool true);
                    (js "result", parseResult (stripFences responseText));
                    (js "usage",
                     JObject
                       [(js "inputTokens",
                         JNumber (input_tokens (usage message)) 0);
                        (js "outputTokens",
                         JNumber (output_tokens (usage message)) 0)])]))))
    end).
Proof.
  unfold attempt. intros -> Hne.
  destruct apiKey as [|c k]; [congruence | reflexivity].
Qed.

(** C2: when the text of the inference reply, after trimming and fence
    stripping, is not valid JSON, a POST that reached the inference API is
    answered with status 200 and a body whose [success] is [true] and whose
    [result] is [{rawResponse: <stripped text>, parseError: <non-empty
    string>}]; the failure envelope of the [catch] block (status 500,
    [success: false]) is not produced. *)
Theorem parse_failure_is_success_envelope
    req apiKey form file message responseText :
  method req = js "POST" ->
  ANTHROPIC_API_KEY env = Some apiKey -> apiKey <> [] ->
  formData req = ret form ->
  FormData_get (js "file") form = Some (EntryFile file) ->
  messages_create apiKey (createParams SYSTEM_PROMPT file) = ret message ->
  responseTextOf E message = ret responseText ->
  JSON_parse (stripFences responseText) = None ->
  exists parseError,
    parseError <> [] /\
    status (handle req) = 200%N /\
    getProp (body (handle req)) (js "success") = Some (JBool true) /\
    getProp (body (handle req)) (js "result") =
      Some (JObject
              [(js "rawResponse", JString (stripFences responseText));
               (js "parseError", JString parseError)]) /\
    handle req =
      respond 200
        (JObject
           [(js "success", JBool true);
            (js "result",
             JObject
               [(js "rawResponse", JString (stripFences responseText));
                (js "parseError", JString parseError)]);
            (js "usage",
             JObject
               [(js "inputTokens", JNumber (input_tokens (usage message)) 0);
                (js "outputTokens",
                 JNumber (output_tokens (usage message)) 0)])]).
Proof.
  intros Hm Hk Hne Hform Hfile Hcall Htext Hparse.
  exists (js "Could not parse JSON response").
  assert (Hr : handle req =
    respond 200
      (JObject
         [(js "success", JBool true);
          (js "result", rawFallback (stripFences responseText));
          (js "usage",
           JObject
             [(js "inputTokens", JNumber (input_tokens (usage message)) 0);
              (js "outputTokens",
               JNumber (output_tokens (usage message)) 0)])])).
  { rewrite (handler_POST _ Hm), (attempt_configured _ _ Hk Hne).
    rewrite Hform. cbn [bind ret]. rewrite Hfile, Hcall. cbn [bind ret].
    rewrite Htext. cbn [bind ret try_catch].
    unfold parseResult. rewrite Hparse. reflexivity. }
  rewrite Hr. split; [discriminate|].
  repeat split; reflexivity.
Qed.

(** C3: on the fenced text (a json fence, a line feed, the object text
    [{"a":1}], a line feed, a closing fence) stripping leaves the object
    text, which parses to the object [{a: 1}]; on the bare object text
    stripping changes nothing and the parse gives the same object. *)
Theorem fence_stripping_examples :
  stripFences fencedA1 = objectA1 /\
  JSON_parse (stripFences fencedA1) = Some (JObject [(js "a", JNumber 1 0)]) /\
  parseResult (stripFences fencedA1) = JObject [(js "a", JNumber 1 0)] /\
  stripFences objectA1 = objectA1 /\
  JSON_parse (stripFences objectA1) = Some (JObject [(js "a", JNumber 1 0)]) /\
  parseResult (stripFences objectA1) = JObject [(js "a", JNumber 1 0)].
Proof. repeat split; vm_compute; reflexivity. Qed.

(** C5: a POST request, whatever its form content, is answered with status
    500 and the body [{success: false, error: "ANTHROPIC_API_KEY not
    configured", details: <stack>}] when the credential is not
    configured. *)
Theorem missing_credential_500 req :
  method req = js "POST" ->
  configured (ANTHROPIC_API_KEY env) = false ->
  status (handle req) = 500%N /\
  body (handle req) =
    JObject
      [(js "success", JBool false);
       (js "error", JString (js "ANTHROPIC_API_KEY not configured"));
       (js "details", stack_trace E (js "ANTHROPIC_API_KEY not configured"))].
Proof.
  intros Hm Hk. rewrite (handler_not_configured _ Hm Hk).
  split; reflexivity.
Qed.

(** C6: an OPTIONS request is answered with status 200, the body
    [{ok: true}] and the headers that allow any origin, the Content-Type
    header and the methods POST and OPTIONS, whatever the environment and
    the rest of the request. *)
Theorem options_200 req :
  method req = js "OPTIONS" ->
  status (handle req) = 200%N /\
  body (handle req) = JObject [(js "ok", JBool true)] /\
  headers (handle req) =
    [(js "Access-Control-Allow-Origin", js "*");
     (js "Access-Control-Allow-Headers", js "Content-Type");
     (js "Access-Control-Allow-Methods", js "POST, OPTIONS");
     (js "Content-Type", js "application/json")].
Proof.
  intros Hm. unfold handler. rewrite Hm.
  repeat split; reflexivity.
Qed.

(** C7: a request whose method is neither POST nor OPTIONS is answered with
    status 405 and [{success: false, error: "Method not allowed"}]; a POST
    with the credential configured whose form body has no [file] field is
    answered with status 400 and [{success: false, error: "No file
    provided"}]. *)
Theorem wrong_method_405_missing_file_400 req :
  (method req <> js "POST" -> method req <> js "OPTIONS" ->
   status (handle req) = 405%N /\
   body (handle req) =
     JObject [(js "success", JBool false);
              (js "error", JString (js "Method not allowed"))]) /\
  (forall form,
     method req = js "POST" ->
     configured (ANTHROPIC_API_KEY env) = true ->
     formData req = ret form ->
     ~ In (js "file") (map fst form) ->
     status (handle req) = 400%N /\
     body (handle req) =
       JObject [(js "success", JBool false);
                (js "error", JString (js "No file provided"))]).
Proof.
  split.
  - intros Hp Ho. unfold handler.
    apply jsstring_eqb_neq in Hp, Ho. rewrite Ho, Hp.
    split; reflexivity.
  - intros form Hm Hk Hform Habs.
    unfold configured in Hk.
    destruct (ANTHROPIC_API_KEY env) as [[|c k]|] eqn:Hkey;
      try discriminate.
    rewrite (handler_POST _ Hm).
    rewrite (attempt_configured _ (c :: k) Hkey) by discriminate.
    rewrite Hform. cbn [bind ret].
    rewrite (FormData_get_absent _ _ Habs).
    split; reflexivity.
Qed.

(** C9: the credential is checked before the form body is read: a POST
    without the credential and without a [file] field gets the status 500
    answer with the error "ANTHROPIC_API_KEY not configured", not the
    status 400 answer for a missing file. *)
Theorem credential_check_precedes_form req form :
  method req = js "POST" ->
  configured (ANTHROPIC_API_KEY env) = false ->
  formData req = ret form ->
  ~ In (js "file") (map fst form) ->
  status (handle req) = 500%N /\
  getProp (body (handle req)) (js "error") =
    Some (JString (js "ANTHROPIC_API_KEY not configured")) /\
  status (handle req) <> 400%N /\
  handle req <> respond 400 (failure (js "No file provided")).
Proof.
  intros Hm Hk _ _. rewrite (handler_not_configured _ Hm Hk).
  repeat split; try reflexivity; discriminate.
Qed.

End HandlerFacts.

(** ** Concrete runs *)

Lemma parse_failure_is_success_envelope_witness :
  exists parseError,
    parseError <> [] /\
    status (handler sampleEngine envReady [] flagsDown
              (apiReplies replyNotJson) (request (js "POST") formWithPdf))
    = 200%N /\
    getProp (body (handler sampleEngine envReady [] flagsDown
                     (apiReplies replyNotJson)
                     (request (js "POST") formWithPdf))) (js "success")
    = Some (JBool true) /\
    getProp (body (handler sampleEngine envReady [] flagsDown
                     (apiReplies replyNotJson)
                     (request (js "POST") formWithPdf))) (js "result")
    = Some (JObject [(js "rawResponse", JString (js "not json"));
                     (js "parseError", JString parseError)]).
Proof.
  destruct (parse_failure_is_success_envelope sampleEngine envReady []
              flagsDown (apiReplies replyNotJson)
              (request (js "POST") formWithPdf) (js "sk-ant-test")
              formWithPdf samplePdf replyNotJson (js "not json"))
    as (parseError & Hne & Hst & Hok & Hres & _);
    try reflexivity; try discriminate.
  exists parseError. repeat split; assumption.
Defined.

Lemma missing_credential_500_witness :
  status (handler sampleEngine envMissing [] flagsDown
            (apiReplies replyNotJson) (request (js "POST") formWithPdf))
  = 500%N /\
  body (handler sampleEngine envMissing [] flagsDown
          (apiReplies replyNotJson) (request (js "POST") formWithPdf))
  = JObject
      [(js "success", JBool false);
       (js "error", JString (js "ANTHROPIC_API_KEY not configured"));
       (js "details",
        stack_trace sampleEngine (js "ANTHROPIC_API_KEY not configured"))].
Proof.
  apply (missing_credential_500 sampleEngine envMissing [] flagsDown
           (apiReplies replyNotJson) (request (js "POST") formWithPdf));
    reflexivity.
Defined.

Lemma options_200_witness :
  status (handler sampleEngine envMissing [] flagsDown
            (apiReplies replyNotJson) (request (js "OPTIONS") []))
  = 200%N /\
  body (handler sampleEngine envMissing [] flagsDown
          (apiReplies replyNotJson) (request (js "OPTIONS") []))
  = JObject [(js "ok", JBool true)] /\
  headers (handler sampleEngine envMissing [] flagsDown
             (apiReplies replyNotJson) (request (js "OPTIONS") []))
  = [(js "Access-Control-Allow-Origin", js "*");
     (js "Access-Control-Allow-Headers", js "Content-Type");
     (js "Access-Control-Allow-Methods", js "POST, OPTIONS");
     (js "Content-Type", js "application/json")].
Proof.
  apply (options_200 sampleEngine envMissing [] flagsDown
           (apiReplies replyNotJson) (request (js "OPTIONS") []));
    reflexivity.
Defined.

Lemma wrong_method_405_missing_file_400_witness :
  status (handler sampleEngine envReady [] flagsDown
            (apiReplies replyNotJson) (request (js "GET") formWithPdf))
  = 405%N /\
  status (handler sampleEngine envReady [] flagsDown
            (apiReplies replyNotJson) (request (js "POST") formWithoutFile))
  = 400%N.
Proof.
  split.
  - apply (wrong_method_405_missing_file_400 sampleEngine envReady []
             flagsDown (apiReplies replyNotJson)
             (request (js "GET") formWithPdf)); discriminate.
  - apply (proj2 (wrong_method_405_missing_file_400 sampleEngine envReady []
             flagsDown (apiReplies replyNotJson)
             (request (js "POST") formWithoutFile)) formWithoutFile);
      try reflexivity.
    simpl. intros [H|[]]. discriminate H.
Defined.

Lemma credential_check_precedes_form_witness :
  status (handler sampleEngine envMissing [] flagsDown
            (apiReplies replyNotJson) (request (js "POST") formWithoutFile))
  = 500%N /\
  getProp (body (handler sampleEngine envMissing [] flagsDown
                   (apiReplies replyNotJson)
                   (request (js "POST") formWithoutFile))) (js "error")
  = Some (JString (js "ANTHROPIC_API_KEY not configured")) /\
  status (handler sampleEngine envMissing [] flagsDown
            (apiReplies replyNotJson) (request (js "POST") formWithoutFile))
  <> 400%N /\
  handler sampleEngine envMissing [] flagsDown
    (apiReplies replyNotJson) (request (js "POST") formWithoutFile)
  <> respond 400 (failure (js "No file provided")).
Proof.
  apply (credential_check_precedes_form sampleEngine envMissing [] flagsDown
           (apiReplies replyNotJson) (request (js "POST") formWithoutFile)
           formWithoutFile); try reflexivity.
  simpl. intros [H|[]]. discriminate H.
Defined.

End RelayFacts.

(* ====================================================================== *)
(** * Properties of the upload component                                   *)
(* ====================================================================== *)

Module UploadFacts.

Import Upload.

Lemma run_app c steps1 steps2 :
  run c (steps1 ++ steps2) = run (run c steps1) steps2.
Proof.
  revert c; induction steps1 as [|[a|] steps1 IH]; intros c; simpl; auto.
Qed.

Lemma isPdf_type f : isPdf f = true <-> type f = PDF.
Proof. apply jsstring_eqb_eq. Qed.

Section HandleUploadFacts.

Variable E : Engine.
Variable fetch : nat -> File -> Fetch.Result.

Lemma uploadLoop_results i rest acc :
  snd (uploadLoop E fetch i rest acc) = acc ++ outcomes E fetch i rest.
Proof.
  revert i acc; induction rest as [|file rest IH]; intros i acc; simpl.
  - symmetry; apply app_nil_r.
  - specialize (IH (S i) (acc ++ [uploadOne E file (fetch i file)])).
    destruct (uploadLoop E fetch (S i) rest
                (acc ++ [uploadOne E file (fetch i file)])) as [steps final].
    simpl in *. rewrite IH, <- app_assoc. reflexivity.
Qed.

Lemma outcomes_length i rest :
  List.length (outcomes E fetch i rest) = List.length rest.
Proof.
  revert i; induction rest as [|file rest IH]; intros i; simpl; auto.
Qed.

Lemma outcomes_nth i rest j file :
  nth_error rest j = Some file ->
  nth_error (outcomes E fetch i rest) j
  = Some (uploadOne E file (fetch (i + j) file)).
Proof.
  revert i j; induction rest as [|f rest IH]; intros i [|j]; simpl;
    try discriminate.
  - intros [= ->]. rewrite Nat.add_0_r. reflexivity.
  - intros H. rewrite (IH (S i) j H).
    replace (S i + j) with (i + S j) by lia. reflexivity.
Qed.

(** [handleUpload] ends with a [setState] that does not read the previous
    state: whatever was queued before it, the [results] it installs are the
    outcomes of the loop. *)
Lemma handleUpload_last_step c :
  files c <> [] ->
  exists steps,
    handleUpload E fetch c
    = steps
      ++ [Do (SetState (fun _ => idle None (outcomes E fetch 0 (files c))))].
Proof.
  intros Hne. unfold handleUpload.
  destruct (files c) as [|f fs] eqn:Hfiles; [congruence|].
  pose proof (uploadLoop_results 0 (f :: fs) []) as Hres.
  destruct (uploadLoop E fetch 0 (f :: fs) []) as [steps final].
  simpl in Hres. subst final.
  eexists (_ :: steps). reflexivity.
Qed.

Lemma handleUpload_final c :
  files c <> [] ->
  state (run c (handleUpload E fetch c))
  = idle None (outcomes E fetch 0 (files c)).
Proof.
  intros Hne. destruct (handleUpload_last_step c Hne) as [steps ->].
  rewrite run_app. reflexivity.
Qed.

Lemma uploadOne_fileName file r : fileName (uploadOne E file r) = name file.
Proof.
  unfold uploadOne, attempt, JSON_parse_or_throw, get.
  destruct r as [e|resp]; [reflexivity|]. cbn [bind ret throw].
  destruct (Fetch.ok resp); [|reflexivity]. cbn [bind ret throw].
  destruct (Fetch.text resp) as [e|[|ch t]]; try reflexivity.
  cbn [bind ret throw].
  destruct (JSON_parse (ch :: t)) as [data|]; [|reflexivity].
  cbn [bind ret throw].
  destruct (getProp data (js "success")) as [ok|] eqn:Hok; [|reflexivity].
  cbn [bind ret throw].
  destruct data; try discriminate Hok;
    destruct (truthy ok); reflexivity.
Qed.

Lemma uploadOne_success file r :
  status (uploadOne E file r) = success <-> succeeds r = true.
Proof.
  unfold uploadOne, attempt, JSON_parse_or_throw, get, succeeds.
  destruct r as [e|resp]; [split; discriminate|]. cbn [bind ret throw].
  destruct (Fetch.ok resp); [|split; discriminate].
  cbn [bind ret throw andb].
  destruct (Fetch.text resp) as [e|[|ch t]]; try (split; discriminate).
  cbn [bind ret throw].
  destruct (JSON_parse (ch :: t)) as [data|]; [|split; discriminate].
  cbn [bind ret throw].
  destruct (getProp data (js "success")) as [ok|] eqn:Hok;
    [|split; discriminate].
  cbn [bind ret throw].
  destruct data; try discriminate Hok;
    destruct (truthy ok); cbn; split; congruence.
Qed.

Lemma uploadOne_failure file r :
  fails r = true ->
  status (uploadOne E file r) = error_ /\
  exists msg, error_of (uploadOne E file r) = JString msg /\ msg <> [].
Proof.
  assert (Hcatch : forall e,
    status (Failed (name file)
              (or_else (JString (message e)) (JString (js "Upload failed"))))
    = error_ /\
    exists msg,
      error_of (Failed (name file)
                  (or_else (JString (message e))
                           (JString (js "Upload failed"))))
      = JString msg /\ msg <> []).
  { intros e. split; [reflexivity|]. cbn [error_of].
    apply or_else_string_nonempty. discriminate. }
  unfold uploadOne, attempt, JSON_parse_or_throw, get, fails.
  destruct r as [e|resp]; [intros _; apply Hcatch|]. cbn [bind ret throw].
  destruct (Fetch.ok resp); [|intros _; apply Hcatch].
  cbn [bind ret throw negb orb].
  destruct (Fetch.text resp) as [e|[|ch t]];
    try (intros _; apply Hcatch).
  cbn [bind ret throw].
  destruct (JSON_parse (ch :: t)) as [data|]; [discriminate|].
  intros _; apply Hcatch.
Qed.

Lemma fails_not_succeeds r : fails r = true -> succeeds r = false.
Proof.
  unfold fails, succeeds. destruct r as [e|resp]; [reflexivity|].
  destruct (Fetch.ok resp); [|reflexivity]. cbn [negb orb andb].
  destruct (Fetch.text resp) as [e|[|ch t]]; try reflexivity.
  destruct (JSON_parse (ch :: t)); [discriminate | reflexivity].
Qed.

(** C1: after [handleUpload] on a non-empty batch, [results] has one entry
    per file, in the order of the files and under the file's name; the
    entry of a file whose relay call failed (network error, status outside
    2xx, empty body, body that is not JSON) has status error and carries a
    non-empty error message; the entry of a file whose call succeeded has
    status success, and no other entry has.  Whatever happens to one call,
    every later file still gets its entry. *)
Theorem handleUpload_results c :
  files c <> [] ->
  let final := state (run c (handleUpload E fetch c)) in
  uploading final = false /\
  List.length (results final) = List.length (files c) /\
  forall i file,
    nth_error (files c) i = Some file ->
    exists o,
      nth_error (results final) i = Some o /\
      fileName o = name file /\
      (fails (fetch i file) = true ->
       status o = error_ /\
       exists msg, error_of o = JString msg /\ msg <> []) /\
      (succeeds (fetch i file) = true -> status o = success) /\
      (status o = success -> succeeds (fetch i file) = true) /\
      (fails (fetch i file) = true \/ succeeds (fetch i file) = true ->
       (status o = error_ <-> fails (fetch i file) = true)).
Proof.
  intros Hne final. subst final. rewrite (handleUpload_final c Hne).
  cbn [uploading results idle]. split; [reflexivity|].
  split; [apply outcomes_length|].
  intros i file Hi.
  exists (uploadOne E file (fetch i file)).
  split; [apply (outcomes_nth 0 _ _ _ Hi)|].
  split; [apply uploadOne_fileName|].
  split; [apply uploadOne_failure|].
  split; [apply uploadOne_success|].
  split; [apply uploadOne_success|].
  intros [Hf|Hs]; split.
  - intros _. exact Hf.
  - intros _. apply uploadOne_failure, Hf.
  - apply (uploadOne_success file) in Hs. congruence.
  - intros Hf. apply fails_not_succeeds in Hf. congruence.
Qed.

(** C10: with no accepted file [handleUpload] returns at once: it takes no
    step, so the component ([files], [dragActive], the whole [state]) is
    what it was, and nothing new is rendered. *)
Theorem handleUpload_empty_noop c :
  files c = [] ->
  handleUpload E fetch c = [] /\
  run c (handleUpload E fetch c) = c /\
  renders c (handleUpload E fetch c) = [c].
Proof.
  intros Hfiles. unfold handleUpload. rewrite Hfiles.
  repeat split; reflexivity.
Qed.

End HandleUploadFacts.

(** C8: [handleReset] leaves no file selected, the initial upload state
    (not uploading, no error, no results, both counters 0) and a cleared
    file input; its updates are applied together, so the only component a
    render can show is the fully reset one. *)
Theorem handleReset_restores c :
  files (run c handleReset) = [] /\
  state (run c handleReset)
  = {| uploading := false; error := None; results := [];
       currentFile := 0; totalFiles := 0 |} /\
  state (run c handleReset) = state initial /\
  files (run c handleReset) = files initial /\
  fileInput (run c handleReset)
  = match fileInput c with Some _ => Some [] | None => None end /\
  renders c handleReset = [run c handleReset].
Proof. repeat split; reflexivity. Qed.

(** C4, as the code has it: a selection or drop without any PDF entry sets
    the error message and leaves [files] as it was (empty, when it was
    empty); a selection with at least one PDF entry is accepted in part:
    [files] becomes its PDF entries, in order, and no error is set.  Either
    way only PDF entries are accepted. *)
Theorem selection_keeps_pdf_only c selection :
  let viaInput := run c (handleFileChange (Some selection)) in
  let viaDrop := run c (handleDrop selection) in
  (filter isPdf selection = [] ->
   files viaInput = files c /\ files viaDrop = files c /\
   error (state viaInput) = Some PDF_ONLY /\
   error (state viaDrop) = Some PDF_ONLY) /\
  (filter isPdf selection <> [] ->
   files viaInput = filter isPdf selection /\
   files viaDrop = filter isPdf selection /\
   error (state viaInput) = None /\ error (state viaDrop) = None) /\
  (Forall (fun f => type f = PDF) (files c) ->
   Forall (fun f => type f = PDF) (files viaInput) /\
   Forall (fun f => type f = PDF) (files viaDrop)).
Proof.
  intros viaInput viaDrop. subst viaInput viaDrop.
  unfold handleFileChange, handleDrop.
  assert (Hpdf : Forall (fun f => type f = PDF) (filter isPdf selection)).
  { apply Forall_forall. intros f Hin. apply filter_In in Hin.
    apply isPdf_type, Hin. }
  destruct (filter isPdf selection) as [|f fs] eqn:Hsel; cbn.
  - repeat split; auto; congruence.
  - repeat split; auto; congruence.
Qed.

(** A change event without a file list behaves as an empty selection. *)
Lemma handleFileChange_null :
  handleFileChange None = handleFileChange (Some []).
Proof. reflexivity. Qed.

(** ** Concrete runs *)

Lemma handleUpload_results_witness :
  let final := state (run sampleBatch
                        (handleUpload sampleEngine sampleNetwork sampleBatch))
  in
  uploading final = false /\
  List.length (results final) = List.length (files sampleBatch) /\
  forall i file,
    nth_error (files sampleBatch) i = Some file ->
    exists o,
      nth_error (results final) i = Some o /\
      fileName o = name file /\
      (fails (sampleNetwork i file) = true ->
       status o = error_ /\
       exists msg, error_of o = JString msg /\ msg <> []) /\
      (succeeds (sampleNetwork i file) = true -> status o = success) /\
      (status o = success -> succeeds (sampleNetwork i file) = true) /\
      (fails (sampleNetwork i file) = true \/
       succeeds (sampleNetwork i file) = true ->
       (status o = error_ <-> fails (sampleNetwork i file) = true)).
Proof.
  apply (handleUpload_results sampleEngine sampleNetwork sampleBatch).
  discriminate.
Defined.

Example handleUpload_sample_run :
  results (state (run sampleBatch
                    (handleUpload sampleEngine sampleNetwork sampleBatch)))
  = [Succeeded (js "invoice.pdf")
       (JObject [(js "validationStatus", JString (js "PASS"))]);
     Failed (js "packing.pdf") (JString (js "Failed to fetch"));
     Failed (js "hbl.pdf") (JString (js "HTTP 500: Internal Server Error"));
     Failed (js "empty.pdf") (JString (js "Empty response from server"));
     Failed (js "garbled.pdf") (JString (js "Unexpected token"));
     Succeeded (js "last.pdf") JNull].
Proof. vm_compute. reflexivity. Qed.

Lemma handleUpload_empty_noop_witness :
  handleUpload sampleEngine sampleNetwork initial = [] /\
  run initial (handleUpload sampleEngine sampleNetwork initial) = initial /\
  renders initial (handleUpload sampleEngine sampleNetwork initial)
  = [initial].
Proof.
  apply (handleUpload_empty_noop sampleEngine sampleNetwork initial).
  reflexivity.
Defined.

Lemma selection_keeps_pdf_only_witness :
  files (run initial (handleFileChange (Some [sampleText]))) = [] /\
  error (state (run initial (handleFileChange (Some [sampleText]))))
  = Some PDF_ONLY /\
  files (run initial (handleDrop mixedSelection)) = [samplePdf] /\
  error (state (run initial (handleDrop mixedSelection))) = None.
Proof.
  pose proof (selection_keeps_pdf_only initial [sampleText]) as [H1 _].
  pose proof (selection_keeps_pdf_only initial mixedSelection) as [_ [H2 _]].
  specialize (H1 eq_refl).
  assert (Hne : filter isPdf mixedSelection <> []) by discriminate.
  specialize (H2 Hne).
  destruct H1 as (Ha & _ & Hb & _). destruct H2 as (_ & Hc & _ & Hd).
  repeat split; assumption.
Defined.

(** C4 as stated fails: from the initial component, selecting (or dropping)
    a PDF together with a text file has an entry that is not a PDF, yet the
    PDF is accepted and no error message is set. *)
Lemma mixed_selection_is_accepted_in_part :
  hasNonPdf mixedSelection /\
  files (run initial (handleFileChange (Some mixedSelection))) = [samplePdf] /\
  error (state (run initial (handleFileChange (Some mixedSelection)))) = None /\
  files (run initial (handleDrop mixedSelection)) = [samplePdf] /\
  error (state (run initial (handleDrop mixedSelection))) = None /\
  ~ (forall c selection,
       hasNonPdf selection ->
       files (run c (handleFileChange (Some selection))) = [] /\
       error (state (run c (handleFileChange (Some selection)))) <> None).
Proof.
  assert (Hmixed : hasNonPdf mixedSelection).
  { exists sampleText. split; [right; left; reflexivity | discriminate]. }
  repeat split; try reflexivity; try exact Hmixed.
  intros Hclaim.
  destruct (Hclaim initial mixedSelection Hmixed) as [Hfiles _].
  discriminate Hfiles.
Qed.

End UploadFacts.

(* ====================================================================== *)
(** * Further properties of the relay endpoint                             *)
(* ====================================================================== *)

Module RelayMore.

Import Relay RelayShapes.

(** ** Trimming and anchored replacement *)

Lemma trimStart_skips ws c rest :
  forallb isWhiteSpace ws = true -> isWhiteSpace c = false ->
  trimStart (ws ++ c :: rest) = c :: rest.
Proof.
  intros Hws Hc. induction ws as [|w ws IH]; cbn [app trimStart].
  - rewrite Hc. reflexivity.
  - cbn [forallb] in Hws. apply andb_true_iff in Hws as [Hw Hws].
    rewrite Hw. apply IH, Hws.
Qed.

Lemma forallb_rev {A} (p : A -> bool) l :
  forallb p (rev l) = forallb p l.
Proof.
  induction l as [|x l IH]; cbn [rev forallb]; [reflexivity|].
  rewrite forallb_app, IH. cbn [forallb]. rewrite andb_true_r.
  apply andb_comm.
Qed.

Lemma trimEnd_skips ws c front :
  forallb isWhiteSpace ws = true -> isWhiteSpace c = false ->
  trimEnd (front ++ c :: ws) = front ++ [c].
Proof.
  intros Hws Hc. unfold trimEnd.
  rewrite rev_app_distr. cbn [rev]. rewrite <- app_assoc. cbn [app].
  rewrite trimStart_skips; [| rewrite forallb_rev; exact Hws | exact Hc].
  cbn [rev]. rewrite rev_involutive. reflexivity.
Qed.

(** A text that starts and ends with a character that is not white space
    is what [trim] leaves of it, whatever white space surrounds it. *)
Lemma trim_core ws1 ws2 c1 middle c2 :
  forallb isWhiteSpace ws1 = true -> forallb isWhiteSpace ws2 = true ->
  isWhiteSpace c1 = false -> isWhiteSpace c2 = false ->
  trim (ws1 ++ (c1 :: middle ++ [c2]) ++ ws2) = c1 :: middle ++ [c2].
Proof.
  intros H1 H2 Hc1 Hc2. unfold trim.
  cbn [app]. rewrite trimStart_skips by assumption.
  replace (c1 :: (middle ++ [c2]) ++ ws2)
    with ((c1 :: middle) ++ c2 :: ws2)
    by (cbn [app]; rewrite <- app_assoc; reflexivity).
  rewrite trimEnd_skips by assumption. reflexivity.
Qed.

Lemma trimStart_suffix s : exists pre, s = pre ++ trimStart s.
Proof.
  induction s as [|c s [pre IH]]; cbn [trimStart]; [exists []; reflexivity|].
  destruct (isWhiteSpace c).
  - exists (c :: pre). cbn [app]. f_equal. exact IH.
  - exists []. reflexivity.
Qed.

Lemma trimEnd_prefix s : exists post, s = trimEnd s ++ post.
Proof.
  unfold trimEnd. destruct (trimStart_suffix (rev s)) as [pre H].
  exists (rev pre). rewrite <- rev_app_distr, <- H. symmetry.
  apply rev_involutive.
Qed.

Lemma stripPrefix_app p s : stripPrefix p (p ++ s) = Some s.
Proof.
  induction p as [|a p IH]; cbn [app stripPrefix]; [reflexivity|].
  rewrite N.eqb_refl. exact IH.
Qed.

Lemma stripPrefix_Some p s r : stripPrefix p s = Some r -> s = p ++ r.
Proof.
  revert s; induction p as [|a p IH]; intros [|b s]; cbn [stripPrefix app];
    try discriminate.
  - intros [= <-]; reflexivity.
  - intros [= <-]; reflexivity.
  - destruct (N.eqb a b) eqn:Hab; [|discriminate].
    apply N.eqb_eq in Hab. subst b. intros H. f_equal. apply IH, H.
Qed.

Lemma removeSuffix_app p s : removeSuffix p (s ++ p) = s.
Proof.
  unfold removeSuffix. rewrite rev_app_distr, stripPrefix_app.
  apply rev_involutive.
Qed.

Lemma removePrefix_suffix p s : exists pre, s = pre ++ removePrefix p s.
Proof.
  unfold removePrefix. destruct (stripPrefix p s) as [r|] eqn:H.
  - exists p. apply stripPrefix_Some, H.
  - exists []. reflexivity.
Qed.

Lemma removeSuffix_prefix p s : exists post, s = removeSuffix p s ++ post.
Proof.
  unfold removeSuffix. destruct (stripPrefix (rev p) (rev s)) as [r|] eqn:H.
  - exists p. apply stripPrefix_Some in H.
    rewrite <- (rev_involutive s), H, rev_app_distr, rev_involutive.
    reflexivity.
  - exists []. symmetry; apply app_nil_r.
Qed.

(** ** Fences *)

Lemma stripFences_of_trimmed_json text body :
  trim text = fenced FENCE_JSON body -> stripFences text = body.
Proof.
  intros Htrim. unfold stripFences. rewrite Htrim.
  unfold startsWith, fenced.
  rewrite stripPrefix_app.
  unfold removePrefix.
  replace (FENCE_JSON ++ [LF] ++ body ++ [LF] ++ FENCE)
    with ((FENCE_JSON ++ [LF]) ++ body ++ (LF :: FENCE))
    by (rewrite <- app_assoc; reflexivity).
  rewrite stripPrefix_app. apply removeSuffix_app.
Qed.

Lemma stripFences_of_trimmed_plain text body :
  trim text = fenced FENCE body -> stripFences text = body.
Proof.
  intros Htrim. unfold stripFences. rewrite Htrim.
  assert (Hj : startsWith (fenced FENCE body) FENCE_JSON = false)
    by reflexivity.
  rewrite Hj.
  unfold startsWith, fenced.
  rewrite stripPrefix_app.
  unfold removePrefix.
  replace (FENCE ++ [LF] ++ body ++ [LF] ++ FENCE)
    with ((FENCE ++ [LF]) ++ body ++ (LF :: FENCE))
    by (rewrite <- app_assoc; reflexivity).
  rewrite stripPrefix_app. apply removeSuffix_app.
Qed.

Lemma trim_fenced opening_rest body ws1 ws2 :
  forallb isWhiteSpace ws1 = true -> forallb isWhiteSpace ws2 = true ->
  trim (ws1 ++ fenced (96%N :: opening_rest) body ++ ws2)
  = fenced (96%N :: opening_rest) body.
Proof.
  intros H1 H2.
  assert (Hshape : fenced (96%N :: opening_rest) body
                   = 96%N :: (opening_rest ++ [LF] ++ body ++ [LF; 96; 96]%N)
                     ++ [96%N]).
  { unfold fenced. change FENCE with [96; 96; 96]%N.
    cbn [app]. f_equal. rewrite <- !app_assoc. cbn [app].
    rewrite <- !app_assoc. reflexivity. }
  rewrite Hshape. apply trim_core; auto.
Qed.

Lemma stripFences_wrapped_json ws1 ws2 body :
  forallb isWhiteSpace ws1 = true -> forallb isWhiteSpace ws2 = true ->
  stripFences (ws1 ++ fenced FENCE_JSON body ++ ws2) = body.
Proof.
  intros H1 H2. apply stripFences_of_trimmed_json.
  apply (trim_fenced (js "``json")); assumption.
Qed.

Lemma stripFences_wrapped_plain ws1 ws2 body :
  forallb isWhiteSpace ws1 = true -> forallb isWhiteSpace ws2 = true ->
  stripFences (ws1 ++ fenced FENCE body ++ ws2) = body.
Proof.
  intros H1 H2. apply stripFences_of_trimmed_plain.
  apply (trim_fenced (js "``")); assumption.
Qed.

(** X9: wrapping any body in a json fence or in a plain fence (opening
    fence line, body, closing fence line), with any white space before and
    after, and stripping gives the body back. *)
Theorem stripFences_unwraps ws1 ws2 body :
  forallb isWhiteSpace ws1 = true -> forallb isWhiteSpace ws2 = true ->
  stripFences (ws1 ++ fenced FENCE_JSON body ++ ws2) = body /\
  stripFences (ws1 ++ fenced FENCE body ++ ws2) = body.
Proof.
  intros H1 H2. split.
  - apply stripFences_wrapped_json; assumption.
  - apply stripFences_wrapped_plain; assumption.
Qed.

Lemma stripFences_unwraps_witness :
  stripFences ([32; 10]%N ++ fenced FENCE_JSON objectA1 ++ [13; 10; 9]%N)
  = objectA1 /\
  stripFences ([32; 10]%N ++ fenced FENCE objectA1 ++ [13; 10; 9]%N)
  = objectA1.
Proof.
  apply (stripFences_unwraps [32; 10]%N [13; 10; 9]%N objectA1);
    reflexivity.
Defined.

(** X10: stripping only ever cuts at the two ends: the result is one
    contiguous piece of the reply text. *)
Theorem stripFences_is_a_piece text :
  exists before after, text = before ++ stripFences text ++ after.
Proof.
  assert (Htrim : exists b a, text = b ++ trim text ++ a).
  { unfold trim. destruct (trimStart_suffix text) as [b Hb].
    destruct (trimEnd_prefix (trimStart text)) as [a Ha].
    exists b, a. rewrite <- Ha. exact Hb. }
  assert (Hcut : forall p q t,
            exists b a, t = b ++ removeSuffix q (removePrefix p t) ++ a).
  { intros p q t. destruct (removePrefix_suffix p t) as [b Hb].
    destruct (removeSuffix_prefix q (removePrefix p t)) as [a Ha].
    exists b, a. rewrite <- Ha. exact Hb. }
  destruct Htrim as (b & a & Ht).
  unfold stripFences.
  destruct (startsWith (trim text) FENCE_JSON);
    [|destruct (startsWith (trim text) FENCE)].
  - destruct (Hcut (FENCE_JSON ++ [LF]) (LF :: FENCE) (trim text))
      as (b' & a' & H').
    exists (b ++ b'), (a' ++ a). rewrite Ht at 1. rewrite H' at 1.
    rewrite <- !app_assoc. reflexivity.
  - destruct (Hcut (FENCE ++ [LF]) (LF :: FENCE) (trim text))
      as (b' & a' & H').
    exists (b ++ b'), (a' ++ a). rewrite Ht at 1. rewrite H' at 1.
    rewrite <- !app_assoc. reflexivity.
  - exists b, a. exact Ht.
Qed.

(** ** The handler as a whole *)

Lemma onError_errorBody e : onError e = respond 500 (errorBody e).
Proof. unfold onError, errorBody, or_else. destruct (message e); reflexivity. Qed.

Section HandlerMore.

Variable E : Engine.
Variable env : Env.
Variable SYSTEM_PROMPT : jsstring.
Variable launchDarkly : jsstring -> throws bool.
Variable messages_create : jsstring -> MessageCreateParams -> throws Message.

Local Abbreviation handle :=
  (handler E env SYSTEM_PROMPT launchDarkly messages_create).
Local Abbreviation try_body :=
  (attempt E env SYSTEM_PROMPT launchDarkly messages_create).

Lemma handle_POST req :
  method req = js "POST" -> handle req = try_catch (try_body req) onError.
Proof. intros H. unfold handler. rewrite H. reflexivity. Qed.

(** The [try] block, once the credential is there. *)
Lemma try_body_with_key req apiKey :
  ANTHROPIC_API_KEY env = Some apiKey -> apiKey <> [] ->
  try_body req =
  bind (formData req) (fun form =>
    match FormData_get (js "file") form with
    | None | Some (EntryString []) =>
        ret (respond 400 (failure (js "No file provided")))
    | Some (EntryString (_ :: _)) =>
        throw (type_error E (js "file.arrayBuffer"))
    | Some (EntryFile file) =>
        bind (messages_create apiKey (createParams SYSTEM_PROMPT file))
          (fun message =>
             bind (responseTextOf E message) (fun responseText =>
               ret (respond 200
                      (successBody (parseResult (stripFences responseText))
                                   message))))
    end).
Proof.
  unfold attempt. intros -> Hne.
  destruct apiKey as [|c k]; [congruence | reflexivity].
Qed.

Lemma try_body_without_key req :
  configured (ANTHROPIC_API_KEY env) = false ->
  try_body req = throw (new_Error E (js "ANTHROPIC_API_KEY not configured")).
Proof.
  unfold attempt, configured.
  destruct (ANTHROPIC_API_KEY env) as [[|c k]|]; intros H;
    try discriminate; reflexivity.
Qed.

(** Every answer of the handler has one of five forms. *)
Lemma handle_forms req :
  handle req = respond 200 (JObject [(js "ok", JBool true)]) \/
  handle req = respond 405 (failure (js "Method not allowed")) \/
  handle req = respond 400 (failure (js "No file provided")) \/
  (exists e, handle req = respond 500 (errorBody e)) \/
  (exists result message, handle req = respond 200 (successBody result message)).
Proof.
  unfold handler.
  destruct (jsstring_eqb (method req) (js "OPTIONS")); [auto|].
  destruct (jsstring_eqb (method req) (js "POST")); cbn [negb]; [|auto].
  do 2 right.
  destruct (configured (ANTHROPIC_API_KEY env)) eqn:Hk.
  - unfold configured in Hk.
    destruct (ANTHROPIC_API_KEY env) as [[|c k]|] eqn:Hkey;
      try discriminate.
    rewrite (try_body_with_key req (c :: k) Hkey) by discriminate.
    destruct (formData req) as [e|form]; cbn [bind try_catch].
    { right; left. exists e. apply onError_errorBody. }
    destruct (FormData_get (js "file") form) as [[[|ch s]|file]|];
      cbn [ret throw try_catch]; auto.
    { right; left. eexists. apply onError_errorBody. }
    destruct (messages_create (c :: k) (createParams SYSTEM_PROMPT file))
      as [e|message]; cbn [bind try_catch].
    { right; left. exists e. apply onError_errorBody. }
    destruct (responseTextOf E message) as [e|text]; cbn [bind ret try_catch].
    { right; left. exists e. apply onError_errorBody. }
    right; right. eauto.
  - rewrite (try_body_without_key req Hk). cbn [throw try_catch].
    right; left. eexists. apply onError_errorBody.
Qed.

(** X1: whatever the request, the environment and the outcome of the
    outside calls, the answer carries the same four headers: any origin is
    allowed, the Content-Type header, the methods POST and OPTIONS, and a
    JSON content type. *)
Theorem every_answer_has_cors_headers req :
  headers (handle req) =
    [(js "Access-Control-Allow-Origin", js "*");
     (js "Access-Control-Allow-Headers", js "Content-Type");
     (js "Access-Control-Allow-Methods", js "POST, OPTIONS");
     (js "Content-Type", js "application/json")].
Proof.
  destruct (handle_forms req)
    as [H|[H|[H|[[e H]|(result & message & H)]]]];
    rewrite H; reflexivity.
Qed.

(** X2: the status is 200, 400, 405 or 500.  With status 200 the body is
    [{ok: true}] (for OPTIONS) or has [success: true]; with any other
    status the body has [success: false] and a non-empty [error] string. *)
Theorem status_matches_envelope req :
  (status (handle req) = 200%N /\
   (body (handle req) = JObject [(js "ok", JBool true)] \/
    getProp (body (handle req)) (js "success") = Some (JBool true))) \/
  ((status (handle req) = 400%N \/ status (handle req) = 405%N \/
    status (handle req) = 500%N) /\
   getProp (body (handle req)) (js "success") = Some (JBool false) /\
   exists msg,
     getProp (body (handle req)) (js "error") = Some (JString msg) /\
     msg <> []).
Proof.
  destruct (handle_forms req)
    as [H|[H|[H|[[e H]|(result & message & H)]]]];
    rewrite H.
  - left. split; [reflexivity | left; reflexivity].
  - right. split; [auto|]. split; [reflexivity|].
    eexists; split; [reflexivity | discriminate].
  - right. split; [auto|]. split; [reflexivity|].
    eexists; split; [reflexivity | discriminate].
  - right. split; [auto|]. split; [reflexivity|].
    eexists; split; [reflexivity|].
    destruct (message e); discriminate.
  - left. split; [reflexivity | right; reflexivity].
Qed.


(** X4: a reply whose first content block is not a text block counts as
    the empty text: the answer is status 200 with [success: true] and the
    fallback result whose [rawResponse] is the empty string. *)
Theorem non_text_reply_is_empty_fallback
    req apiKey form file message block_type rest :
  method req = js "POST" ->
  ANTHROPIC_API_KEY env = Some apiKey -> apiKey <> [] ->
  formData req = ret form ->
  FormData_get (js "file") form = Some (EntryFile file) ->
  messages_create apiKey (createParams SYSTEM_PROMPT file) = ret message ->
  content message = OtherBlock block_type :: rest ->
  status (handle req) = 200%N /\
  getProp (body (handle req)) (js "success") = Some (JBool true) /\
  getProp (body (handle req)) (js "result") =
    Some (JObject
            [(js "rawResponse", JString []);
             (js "parseError", JString (js "Could not parse JSON response"))]).
Proof.
  intros Hm Hk Hne Hform Hfile Hcall Hcontent.
  rewrite (handle_POST _ Hm), (try_body_with_key _ _ Hk Hne).
  rewrite Hform. cbn [bind ret]. rewrite Hfile, Hcall. cbn [bind ret].
  unfold responseTextOf. rewrite Hcontent. cbn [bind ret try_catch].
  repeat split; reflexivity.
Qed.

(** X5: with the credential configured, a POST whose body cannot be read
    as a form, or whose inference call fails, or whose reply has no content
    block, is answered with status 500, [success: false], the message of
    the error that was thrown (or "Internal server error" when that message
    is empty) and its stack as [details]. *)
Theorem thrown_errors_become_500 req apiKey :
  method req = js "POST" ->
  ANTHROPIC_API_KEY env = Some apiKey -> apiKey <> [] ->
  (forall e, formData req = throw e ->
             handle req = respond 500 (errorBody e)) /\
  (forall form file e,
     formData req = ret form ->
     FormData_get (js "file") form = Some (EntryFile file) ->
     messages_create apiKey (createParams SYSTEM_PROMPT file) = throw e ->
     handle req = respond 500 (errorBody e)) /\
  (forall form file message,
     formData req = ret form ->
     FormData_get (js "file") form = Some (EntryFile file) ->
     messages_create apiKey (createParams SYSTEM_PROMPT file) = ret message ->
     content message = [] ->
     handle req
     = respond 500 (errorBody (type_error E (js "message.content[0].type")))).
Proof.
  intros Hm Hk Hne.
  rewrite (handle_POST _ Hm), (try_body_with_key _ _ Hk Hne).
  split; [|split].
  - intros e ->. cbn [bind throw try_catch]. apply onError_errorBody.
  - intros form file e -> Hfile Hcall. cbn [bind ret].
    rewrite Hfile, Hcall. cbn [bind throw try_catch].
    apply onError_errorBody.
  - intros form file message -> Hfile Hcall Hcontent. cbn [bind ret].
    rewrite Hfile, Hcall. cbn [bind ret].
    unfold responseTextOf. rewrite Hcontent. cbn [bind throw try_catch].
    apply onError_errorBody.
Qed.

(** X6: only the first form entry named [file] counts.  When it is a text
    field, the empty text is answered like a missing file (status 400) and
    any other text with status 500, since a string has no [arrayBuffer];
    the inference API is not called in either case. *)
Theorem text_file_field req apiKey form s :
  method req = js "POST" ->
  ANTHROPIC_API_KEY env = Some apiKey -> apiKey <> [] ->
  formData req = ret form ->
  FormData_get (js "file") form = Some (EntryString s) ->
  handle req =
    match s with
    | [] => respond 400 (failure (js "No file provided"))
    | _ :: _ => respond 500 (errorBody (type_error E (js "file.arrayBuffer")))
    end.
Proof.
  intros Hm Hk Hne Hform Hfile.
  rewrite (handle_POST _ Hm), (try_body_with_key _ _ Hk Hne).
  rewrite Hform. cbn [bind ret]. rewrite Hfile.
  destruct s; cbn [ret throw try_catch]; [reflexivity|].
  apply onError_errorBody.
Qed.


End HandlerMore.

(** X7: the feature-flag block has no effect on the answer: two runs that
    differ only in the LaunchDarkly identifier of the environment and in
    what the flag service does give the same answer. *)
Theorem flag_service_is_ignored
    E env env' SYSTEM_PROMPT launchDarkly launchDarkly' messages_create req :
  ANTHROPIC_API_KEY env = ANTHROPIC_API_KEY env' ->
  handler E env SYSTEM_PROMPT launchDarkly messages_create req
  = handler E env' SYSTEM_PROMPT launchDarkly' messages_create req.
Proof.
  intros Hkey. unfold handler, attempt. rewrite Hkey. reflexivity.
Qed.

(** X8: the answer depends on the inference API only through one call: the
    one made with the configured key and the request built from the first
    [file] entry of the form.  Two APIs that agree on that call give the
    same answer; in particular a request that is not a POST, lacks the
    credential or carries no file never reaches the API. *)
Theorem api_is_called_for_the_posted_file_only
    E env SYSTEM_PROMPT launchDarkly messages_create messages_create' req :
  (forall apiKey form file,
     method req = js "POST" ->
     ANTHROPIC_API_KEY env = Some apiKey -> apiKey <> [] ->
     formData req = ret form ->
     FormData_get (js "file") form = Some (EntryFile file) ->
     messages_create apiKey (createParams SYSTEM_PROMPT file)
     = messages_create' apiKey (createParams SYSTEM_PROMPT file)) ->
  handler E env SYSTEM_PROMPT launchDarkly messages_create req
  = handler E env SYSTEM_PROMPT launchDarkly messages_create' req.
Proof.
  intros Hagree. unfold handler.
  destruct (jsstring_eqb (method req) (js "OPTIONS")); [reflexivity|].
  destruct (jsstring_eqb (method req) (js "POST")) eqn:Hpost;
    cbn [negb]; [|reflexivity].
  apply jsstring_eqb_eq in Hpost. f_equal.
  destruct (configured (ANTHROPIC_API_KEY env)) eqn:Hk.
  - unfold configured in Hk.
    destruct (ANTHROPIC_API_KEY env) as [[|c k]|] eqn:Hkey;
      try discriminate.
    rewrite !(try_body_with_key _ _ _ _ _ req (c :: k) Hkey)
      by discriminate.
    destruct (formData req) as [e|form] eqn:Hform; [reflexivity|].
    cbn [bind].
    destruct (FormData_get (js "file") form) as [[s|file]|] eqn:Hfile;
      try reflexivity.
    rewrite (Hagree (c :: k) form file Hpost eq_refl) by
      (try discriminate; auto).
    reflexivity.
  - rewrite !try_body_without_key by exact Hk. reflexivity.
Qed.

(** ** Concrete runs *)


Lemma non_text_reply_is_empty_fallback_witness :
  status (handler sampleEngine envReady [] flagsDown (apiReplies replyToolUse)
            (request (js "POST") formWithPdf)) = 200%N /\
  getProp (body (handler sampleEngine envReady [] flagsDown
                   (apiReplies replyToolUse)
                   (request (js "POST") formWithPdf))) (js "success")
  = Some (JBool true) /\
  getProp (body (handler sampleEngine envReady [] flagsDown
                   (apiReplies replyToolUse)
                   (request (js "POST") formWithPdf))) (js "result")
  = Some (JObject
            [(js "rawResponse", JString []);
             (js "parseError", JString (js "Could not parse JSON response"))]).
Proof.
  apply (non_text_reply_is_empty_fallback sampleEngine envReady [] flagsDown
           (apiReplies replyToolUse) (request (js "POST") formWithPdf)
           (js "sk-ant-test") formWithPdf samplePdf replyToolUse
           (js "tool_use") []);
    try reflexivity; discriminate.
Defined.

Lemma thrown_errors_become_500_witness :
  handler sampleEngine envReady [] flagsDown apiDown unreadableRequest
  = respond 500
      (JObject [(js "success", JBool false);
                (js "error", JString (js "Internal server error"));
                (js "details", JUndefined)]) /\
  handler sampleEngine envReady [] flagsDown apiDown
    (request (js "POST") formWithPdf)
  = respond 500
      (JObject [(js "success", JBool false);
                (js "error", JString (js "overloaded_error"));
                (js "details", JString (js "at create"))]) /\
  status (handler sampleEngine envReady [] flagsDown
            (apiReplies replyWithoutContent)
            (request (js "POST") formWithPdf)) = 500%N.
Proof.
  split; [|split].
  - apply (proj1 (thrown_errors_become_500 sampleEngine envReady []
                    flagsDown apiDown unreadableRequest (js "sk-ant-test")
                    eq_refl eq_refl ltac:(discriminate)) unnamedError).
    reflexivity.
  - apply (proj1 (proj2 (thrown_errors_become_500 sampleEngine envReady []
                    flagsDown apiDown (request (js "POST") formWithPdf)
                    (js "sk-ant-test") eq_refl eq_refl ltac:(discriminate)))
             formWithPdf samplePdf overloaded); reflexivity.
  - rewrite (proj2 (proj2 (thrown_errors_become_500 sampleEngine envReady []
                    flagsDown (apiReplies replyWithoutContent)
                    (request (js "POST") formWithPdf)
                    (js "sk-ant-test") eq_refl eq_refl ltac:(discriminate)))
             formWithPdf samplePdf replyWithoutContent);
      reflexivity.
Defined.

Lemma text_file_field_witness :
  status (handler sampleEngine envReady [] flagsDown
            (apiReplies replyNotJson)
            (request (js "POST") formWithTextFile)) = 500%N /\
  status (handler sampleEngine envReady [] flagsDown
            (apiReplies replyNotJson)
            (request (js "POST") formWithEmptyFile)) = 400%N.
Proof.
  split.
  - rewrite (text_file_field sampleEngine envReady [] flagsDown
               (apiReplies replyNotJson)
               (request (js "POST") formWithTextFile) (js "sk-ant-test")
               formWithTextFile (js "hello"));
      try reflexivity; discriminate.
  - rewrite (text_file_field sampleEngine envReady [] flagsDown
               (apiReplies replyNotJson)
               (request (js "POST") formWithEmptyFile) (js "sk-ant-test")
               formWithEmptyFile []);
      try reflexivity; discriminate.
Defined.


Lemma flag_service_is_ignored_witness :
  handler sampleEngine envReady [] flagsDown (apiReplies replyNotJson)
    (request (js "POST") formWithPdf)
  = handler sampleEngine
      {| ANTHROPIC_API_KEY := Some (js "sk-ant-test");
         LAUNCHDARKLY_CLIENT_SIDE_ID := None |}
      [] (fun _ => ret true) (apiReplies replyNotJson)
      (request (js "POST") formWithPdf).
Proof.
  apply (flag_service_is_ignored sampleEngine envReady
           {| ANTHROPIC_API_KEY := Some (js "sk-ant-test");
              LAUNCHDARKLY_CLIENT_SIDE_ID := None |}
           [] flagsDown (fun _ => ret true) (apiReplies replyNotJson)
           (request (js "POST") formWithPdf)).
  reflexivity.
Defined.

Lemma api_is_called_for_the_posted_file_only_witness :
  handler sampleEngine envReady [] flagsDown (apiReplies replyNotJson)
    (request (js "POST") formWithPdf)
  = handler sampleEngine envReady [] flagsDown apiForOneKey
      (request (js "POST") formWithPdf).
Proof.
  apply (api_is_called_for_the_posted_file_only sampleEngine envReady []
           flagsDown (apiReplies replyNotJson) apiForOneKey
           (request (js "POST") formWithPdf)).
  intros apiKey form file _ Hkey _ _ _.
  injection Hkey as <-. reflexivity.
Defined.

End RelayMore.

(* ====================================================================== *)
(** * Further properties of the upload component                           *)
(* ====================================================================== *)

Module UploadMore.

Import Upload UploadView.




Section HandleUploadMore.

Variable E : Engine.
Variable fetch : nat -> File -> Fetch.Result.




(** The steps of [handleUpload] on a non-empty batch, taken apart. *)
Lemma handleUpload_steps c :
  files c <> [] ->
  handleUpload E fetch c
  = Do (SetState (fun _ =>
          {| uploading := true; error := None; results := [];
             currentFile := 0; totalFiles := List.length (files c) |}))
    :: fst (uploadLoop E fetch 0 (files c) [])
    ++ [Do (SetState (fun _ =>
              idle None (snd (uploadLoop E fetch 0 (files c) []))))].
Proof.
  intros Hne. unfold handleUpload.
  destruct (files c) as [|f fs]; [congruence|].
  destruct (uploadLoop E fetch 0 (f :: fs) []) as [steps final].
  reflexivity.
Qed.




(** X16: the last step of [handleUpload] installs the outcomes of the
    files it captured when it was started, and reads nothing of the
    current state: whatever other handlers have made of the component in
    the meantime (another selection, a reset), [results] ends up as the
    outcomes of the captured batch and [files] stays what it has become. *)
Theorem upload_reports_the_captured_batch c :
  files c <> [] ->
  exists steps last,
    handleUpload E fetch c = steps ++ [last] /\
    forall meanwhile,
      state (run meanwhile [last])
      = idle None (outcomes E fetch 0 (files c)) /\
      List.length (results (state (run meanwhile [last])))
      = List.length (files c) /\
      files (run meanwhile [last]) = files meanwhile.
Proof.
  intros Hne. rewrite (handleUpload_steps c Hne).
  pose proof (UploadFacts.uploadLoop_results E fetch 0 (files c) []) as Hres.
  cbn [app] in Hres. rewrite Hres.
  eexists (_ :: _), _. split; [reflexivity|].
  intros meanwhile. cbn [run apply state files results idle].
  repeat split. apply UploadFacts.outcomes_length.
Qed.


(** X12: when the relay answers with a status outside 200-299 the body is
    not read: the entry of the file is an error whose message is "HTTP",
    the status and the status text, whatever error text the body
    carries. *)
Theorem non_2xx_message file resp :
  Fetch.ok resp = false ->
  uploadOne E file (Fetch.Fulfilled resp)
  = Failed (name file)
      (JString (js "HTTP " ++ N_to_js (Fetch.status resp) ++ js ": "
                ++ Fetch.statusText resp)).
Proof.
  intros Hok. unfold uploadOne, attempt. cbn [bind ret throw].
  rewrite Hok. reflexivity.
Qed.

(** X13: a 2xx body that is valid JSON but not an envelope with a truthy
    [success] is reported as an error: the text "Validation failed" when
    the value is an array, a string, a number or a boolean, or an object
    whose [success] and [error] are both falsy or missing; the [error] of
    the object when that is truthy; for [null] the message of the TypeError
    (or "Upload failed" when that is empty). *)
Theorem json_body_without_success file resp ch text data :
  Fetch.ok resp = true ->
  Fetch.text resp = ret (ch :: text) ->
  JSON_parse (ch :: text) = Some data ->
  uploadOne E file (Fetch.Fulfilled resp)
  = match data with
    | JObject props =>
        match lookup (js "success") props with
        | Some ok =>
            if truthy ok then
              Succeeded (name file)
                (match lookup (js "result") props with
                 | Some r => r
                 | None => JUndefined
                 end)
            else
              Failed (name file)
                (match lookup (js "error") props with
                 | Some err => or_else err (JString (js "Validation failed"))
                 | None => JString (js "Validation failed")
                 end)
        | None =>
            Failed (name file)
              (match lookup (js "error") props with
               | Some err => or_else err (JString (js "Validation failed"))
               | None => JString (js "Validation failed")
               end)
        end
    | JNull | JUndefined =>
        Failed (name file)
          (or_else (JString (message (type_error E (js "data.success"))))
                   (JString (js "Upload failed")))
    | _ => Failed (name file) (JString (js "Validation failed"))
    end.
Proof.
  intros Hok Htext Hparse.
  unfold uploadOne, attempt, JSON_parse_or_throw, get.
  cbn [bind ret throw]. rewrite Hok. cbn [bind ret throw].
  rewrite Htext. cbn [bind ret throw]. rewrite Hparse. cbn [bind ret throw].
  destruct data as [| |b|m e|s|xs|props]; try reflexivity.
  cbn [getProp].
  destruct (lookup (js "success") props) as [ok|]; cbn [bind ret].
  - destruct (truthy ok); cbn [bind ret try_catch]; [reflexivity|].
    destruct (lookup (js "error") props); reflexivity.
  - cbn [truthy bind ret try_catch].
    destruct (lookup (js "error") props); reflexivity.
Qed.

End HandleUploadMore.

(** X17: every selection or drop, accepted or not, and whatever the
    component was doing (a batch may be in flight), leaves no results, no
    uploading flag and both counters at 0; a drop also clears the drag
    flag, a change of the file input leaves it as it was. *)
Theorem selection_discards_results c selected dropped :
  let viaInput := run c (handleFileChange selected) in
  let viaDrop := run c (handleDrop dropped) in
  results (state viaInput) = [] /\ results (state viaDrop) = [] /\
  uploading (state viaInput) = false /\ uploading (state viaDrop) = false /\
  currentFile (state viaInput) = 0 /\ currentFile (state viaDrop) = 0 /\
  totalFiles (state viaInput) = 0 /\ totalFiles (state viaDrop) = 0 /\
  dragActive viaInput = dragActive c /\ dragActive viaDrop = false /\
  fileInput viaInput = fileInput c /\ fileInput viaDrop = fileInput c.
Proof.
  intros viaInput viaDrop. subst viaInput viaDrop.
  unfold handleFileChange, handleDrop.
  destruct (filter isPdf match selected with Some fs => fs | None => [] end);
    destruct (filter isPdf dropped); cbn; repeat split.
Qed.

(** ** Concrete runs *)


Example upload_progress_sample :
  map (fun c' => currentFile (state c'))
      (suspensions sampleBatch
         (handleUpload sampleEngine sampleNetwork sampleBatch))
  = [1; 1; 2; 3; 4; 4; 5; 5; 6; 6].
Proof. vm_compute. reflexivity. Qed.

Lemma upload_reports_the_captured_batch_witness :
  exists steps last,
    handleUpload sampleEngine sampleNetwork sampleBatch = steps ++ [last] /\
    forall meanwhile,
      state (run meanwhile [last])
      = idle None (outcomes sampleEngine sampleNetwork 0 (files sampleBatch))
      /\
      List.length (results (state (run meanwhile [last])))
      = List.length (files sampleBatch) /\
      files (run meanwhile [last]) = files meanwhile.
Proof.
  apply (upload_reports_the_captured_batch sampleEngine sampleNetwork
           sampleBatch).
  discriminate.
Defined.


Lemma non_2xx_message_witness :
  uploadOne sampleEngine samplePdf (Fetch.Fulfilled serverError)
  = Failed (js "invoice.pdf")
      (JString (js "HTTP 500: Internal Server Error")).
Proof.
  apply (non_2xx_message sampleEngine samplePdf serverError). reflexivity.
Defined.

Lemma json_body_without_success_witness :
  uploadOne sampleEngine samplePdf (Fetch.Fulfilled (okWith (js "[1]")))
  = Failed (js "invoice.pdf") (JString (js "Validation failed")) /\
  uploadOne sampleEngine samplePdf (Fetch.Fulfilled (okWith (js "null")))
  = Failed (js "invoice.pdf") (JString (js "Cannot read data.success")).
Proof.
  split.
  - apply (json_body_without_success sampleEngine samplePdf
             (okWith (js "[1]")) 91%N (js "1]") (JArray [JNumber 1 0]));
      reflexivity.
  - apply (json_body_without_success sampleEngine samplePdf
             (okWith (js "null")) 110%N (js "ull") JNull);
      reflexivity.
Defined.

End UploadMore.

(* ====================================================================== *)
(** * Properties of the result display                                     *)
(* ====================================================================== *)

Module DisplayFacts.

Import ValidationResult.

Lemma not_white_not_space c : isWhiteSpace c = false -> N.eqb c 32 = false.
Proof.
  intros H. destruct (N.eqb_spec c 32) as [->|]; [discriminate H|].
  reflexivity.
Qed.

Lemma capital_not_white c : isCapital c = true -> isWhiteSpace c = false.
Proof.
  unfold isCapital, isWhiteSpace. intros H.
  apply andb_true_iff in H as [H1 H2].
  apply N.leb_le in H1, H2. cbn [existsb].
  repeat match goal with
         | |- context [N.eqb c ?k] =>
             destruct (N.eqb_spec c k); [lia|]
         end.
  cbn [orb]. apply andb_false_iff. left. apply N.leb_gt. lia.
Qed.

Lemma trimEnd_keeps front c :
  isWhiteSpace c = false -> trimEnd (front ++ [c]) = front ++ [c].
Proof.
  intros Hc. unfold trimEnd. rewrite rev_app_distr. cbn [rev app trimStart].
  rewrite Hc. cbn [rev]. rewrite rev_involutive. reflexivity.
Qed.

(** After its first character, the spaced text of a key without white
    space still ends with a character of the key. *)
Lemma spaced_ends_with_key_char rest :
  forall c,
    forallb (fun x => negb (isWhiteSpace x)) (c :: rest) = true ->
    exists front l,
      c :: spaceCapitals rest = front ++ [l] /\ isWhiteSpace l = false.
Proof.
  induction rest as [|d rest IH]; intros c Hkey.
  - exists [], c. split; [reflexivity|].
    cbn [forallb] in Hkey. apply andb_true_iff in Hkey as [Hc _].
    apply negb_true_iff, Hc.
  - cbn [forallb] in Hkey. apply andb_true_iff in Hkey as [Hc Hrest].
    destruct (IH d Hrest) as (front & l & Heq & Hl).
    cbn [spaceCapitals]. destruct (isCapital d).
    + exists (c :: 32%N :: front), l. split; [|exact Hl].
      cbn [app]. rewrite <- Heq. reflexivity.
    + exists (c :: front), l. split; [|exact Hl].
      cbn [app]. rewrite <- Heq. reflexivity.
Qed.

Lemma filter_spaceCapitals key :
  forallb (fun x => negb (isWhiteSpace x)) key = true ->
  filter (fun x => negb (N.eqb x 32)) (spaceCapitals key) = key.
Proof.
  induction key as [|c key IH]; intros Hkey; [reflexivity|].
  cbn [forallb] in Hkey. apply andb_true_iff in Hkey as [Hc Hrest].
  apply negb_true_iff in Hc. pose proof (not_white_not_space c Hc) as Hsp.
  cbn [spaceCapitals]. destruct (isCapital c); cbn [filter N.eqb negb];
    rewrite Hsp; cbn [negb]; rewrite (IH Hrest); reflexivity.
Qed.

(** X19: for a key without white space, the caption is the key with one
    space before each capital letter A-Z other than a leading one; taking
    the spaces out of the caption gives the key back. *)
Theorem fieldCaption_spaces_capitals c rest :
  forallb (fun x => negb (isWhiteSpace x)) (c :: rest) = true ->
  fieldCaption (c :: rest) = c :: spaceCapitals rest /\
  filter (fun x => negb (N.eqb x 32)) (fieldCaption (c :: rest)) = c :: rest.
Proof.
  intros Hkey.
  assert (Hcap : fieldCaption (c :: rest) = c :: spaceCapitals rest).
  { destruct (spaced_ends_with_key_char rest c Hkey)
      as (front & l & Heq & Hl).
    pose proof Hkey as Hkey'.
    cbn [forallb] in Hkey'. apply andb_true_iff in Hkey' as [Hc _].
    apply negb_true_iff in Hc.
    unfold fieldCaption, trim. cbn [spaceCapitals].
    destruct (isCapital c).
    - cbn [trimStart]. change (isWhiteSpace 32%N) with true. cbn iota.
      rewrite Hc. rewrite Heq. apply trimEnd_keeps, Hl.
    - cbn [trimStart]. rewrite Hc. rewrite Heq. apply trimEnd_keeps, Hl. }
  split; [exact Hcap|].
  rewrite Hcap.
  pose proof Hkey as Hkey'.
  cbn [forallb] in Hkey'. apply andb_true_iff in Hkey' as [Hc Hrest].
  apply negb_true_iff in Hc.
  cbn [filter]. rewrite (not_white_not_space c Hc). cbn [negb].
  rewrite (filter_spaceCapitals rest Hrest). reflexivity.
Qed.

Lemma fieldCaption_spaces_capitals_witness :
  fieldCaption (js "hblNumber") = js "hbl Number" /\
  filter (fun x => negb (N.eqb x 32)) (fieldCaption (js "hblNumber"))
  = js "hblNumber".
Proof.
  apply (fieldCaption_spaces_capitals 104%N (js "blNumber")). reflexivity.
Defined.

Section DisplayMore.

Variable E : Engine.

(** X20: the display shows the fallback the relay builds for an
    unparseable reply as raw text exactly when the stripped text is not
    empty.  For an empty stripped text (an empty reply, white space only,
    or a first block that is not text) it takes the structured view, whose
    badge is the gray "COMPLETED". *)
Theorem fallback_display cleanedText :
  JSON_parse cleanedText = None ->
  showsRaw E (Relay.parseResult cleanedText)
  = ret (match cleanedText with [] => false | _ :: _ => true end) /\
  badge E (Relay.parseResult cleanedText)
  = ret (js "bg-gray-100 text-gray-800 border-gray-200",
         JString (js "COMPLETED")).
Proof.
  intros Hparse. unfold Relay.parseResult. rewrite Hparse.
  destruct cleanedText; split; reflexivity.
Qed.

(** X21: an envelope with a truthy [success] whose [result] is missing or
    [null] is counted as a success by the upload loop, and the display
    throws on it: its first test reads a property of [result]. *)
Theorem success_without_result_cannot_be_shown
    file resp ch text props ok :
  Fetch.ok resp = true ->
  Fetch.text resp = ret (ch :: text) ->
  JSON_parse (ch :: text) = Some (JObject props) ->
  lookup (js "success") props = Some ok -> truthy ok = true ->
  lookup (js "result") props = None \/
  lookup (js "result") props = Some JNull ->
  Upload.status (Upload.uploadOne E file (Fetch.Fulfilled resp))
  = Upload.success /\
  showsRaw E (Upload.result (Upload.uploadOne E file (Fetch.Fulfilled resp)))
  = throw (type_error E (js "result.rawResponse")).
Proof.
  intros Hok Htext Hparse Hsuccess Htruthy Hresult.
  unfold Upload.uploadOne, Upload.attempt, JSON_parse_or_throw, get.
  cbn [bind ret throw]. rewrite Hok. cbn [bind ret throw].
  rewrite Htext. cbn [bind ret throw]. rewrite Hparse. cbn [bind ret throw].
  cbn [getProp]. rewrite Hsuccess. cbn [bind ret]. rewrite Htruthy.
  destruct Hresult as [-> | ->]; cbn [bind ret try_catch];
    split; reflexivity.
Qed.

End DisplayMore.

Lemma fallback_display_witness :
  showsRaw sampleEngine (Relay.parseResult (Relay.stripFences []))
  = ret false /\
  badge sampleEngine (Relay.parseResult (Relay.stripFences []))
  = ret (js "bg-gray-100 text-gray-800 border-gray-200",
         JString (js "COMPLETED")).
Proof.
  apply (fallback_display sampleEngine (Relay.stripFences [])).
  reflexivity.
Defined.

Lemma success_without_result_cannot_be_shown_witness :
  Upload.status
    (Upload.uploadOne sampleEngine samplePdf
       (Fetch.Fulfilled
          (okWith (js "{" ++ quoted "success" ++ js ":true}"))))
  = Upload.success /\
  showsRaw sampleEngine
    (Upload.result
       (Upload.uploadOne sampleEngine samplePdf
          (Fetch.Fulfilled
             (okWith (js "{" ++ quoted "success" ++ js ":true}")))))
  = throw (type_error sampleEngine (js "result.rawResponse")).
Proof.
  apply (success_without_result_cannot_be_shown sampleEngine samplePdf
           (okWith (js "{" ++ quoted "success" ++ js ":true}"))
           123%N (quoted "success" ++ js ":true}")
           [(js "success", JBool true)] (JBool true));
    try reflexivity.
  left; reflexivity.
Defined.

End DisplayFacts.

(* ====================================================================== *)
(** * Properties of the flag endpoint                                      *)
(* ====================================================================== *)

Module FeatureFlagsFacts.

Import FeatureFlags RelayShapes.


Section FlagFacts.

Variable env : Relay.Env.
Variable initLD : jsstring -> throws Client.

Local Abbreviation handle := (handler env initLD).

Lemma handle_not_options req :
  method req <> js "OPTIONS" ->
  handle req = try_catch (attempt env initLD req) onError.
Proof.
  intros H. unfold handler. apply jsstring_eqb_neq in H. rewrite H.
  reflexivity.
Qed.

Lemma attempt_with_id req id :
  Relay.LAUNCHDARKLY_CLIENT_SIDE_ID env = Some id -> id <> [] ->
  attempt env initLD req =
  bind (initLD id) (fun client =>
    bind (waitForInitialization client) (fun _ =>
      bind (variation client (js "enableMyNewFeature") (userContextOf req)
              (JBool false)) (fun newFeatureEnabled =>
        bind (variation client (js "enableEnhancedValidation")
                (userContextOf req) (JBool false))
          (fun enhancedValidationEnabled =>
             bind (close client) (fun _ =>
               ret (respond 200
                      (JObject
                         [(js "success", JBool true);
                          (js "flags",
                           JObject
                             [(js "enableMyNewFeature", newFeatureEnabled);
                              (js "enableEnhancedValidation",
                               enhancedValidationEnabled)]);
                          (js "user",
                           JString (key (userContextOf req)))]))))))).
Proof.
  unfold attempt. intros -> Hne.
  destruct id as [|c id]; [congruence | reflexivity].
Qed.

(** X22: the flag endpoint has no method check: any request that is not
    OPTIONS is served, and the answer depends on the request only through
    its x-user-id header (x-user-email is read but only handed to the flag
    service).  The status is 200 or 500, and every answer carries the same
    headers. *)
Theorem flags_served_for_any_method req req' :
  method req <> js "OPTIONS" -> method req' <> js "OPTIONS" ->
  header req (js "x-user-id") = header req' (js "x-user-id") ->
  header req (js "x-user-email") = header req' (js "x-user-email") ->
  handle req = handle req' /\
  (Relay.status (handle req) = 200%N \/ Relay.status (handle req) = 500%N) /\
  Relay.headers (handle req) =
    [(js "Access-Control-Allow-Origin", js "*");
     (js "Access-Control-Allow-Headers", js "Content-Type");
     (js "Access-Control-Allow-Methods", js "GET, POST, OPTIONS");
     (js "Content-Type", js "application/json")].
Proof.
  intros Hm Hm' Hid Hmail.
  rewrite (handle_not_options req Hm), (handle_not_options req' Hm').
  assert (Hctx : userContextOf req = userContextOf req').
  { unfold userContextOf. rewrite Hid, Hmail. reflexivity. }
  assert (Hsame : attempt env initLD req = attempt env initLD req').
  { unfold attempt. rewrite Hctx. reflexivity. }
  split; [rewrite Hsame; reflexivity|].
  unfold attempt.
  destruct (Relay.LAUNCHDARKLY_CLIENT_SIDE_ID env) as [[|c id]|];
    try (split; [right|]; reflexivity).
  destruct (initLD (c :: id)) as [e|client]; cbn [bind try_catch];
    [split; [right|]; reflexivity|].
  destruct (waitForInitialization client) as [e|[]]; cbn [bind try_catch];
    [split; [right|]; reflexivity|].
  destruct (variation client (js "enableMyNewFeature") (userContextOf req)
              (JBool false)) as [e|v1]; cbn [bind try_catch];
    [split; [right|]; reflexivity|].
  destruct (variation client (js "enableEnhancedValidation")
              (userContextOf req) (JBool false)) as [e|v2];
    cbn [bind try_catch]; [split; [right|]; reflexivity|].
  destruct (close client) as [e|[]]; cbn [bind ret try_catch];
    split; try reflexivity; auto.
Qed.

(** X23: without the LaunchDarkly identifier (unset or empty) the answer
    is status 500 with the error "LAUNCHDARKLY_CLIENT_SIDE_ID not
    configured" and no [details]; the flag service is not contacted. *)
Theorem flags_need_the_identifier req :
  method req <> js "OPTIONS" ->
  Relay.configured (Relay.LAUNCHDARKLY_CLIENT_SIDE_ID env) = false ->
  handle req =
    respond 500
      (JObject
         [(js "success", JBool false);
          (js "error",
           JString (js "LAUNCHDARKLY_CLIENT_SIDE_ID not configured"))]) /\
  getProp (Relay.body (handle req)) (js "details") = Some JUndefined /\
  forall initLD', handler env initLD' req = handle req.
Proof.
  intros Hm Hid.
  assert (Hany : forall init,
            handler env init req =
            respond 500
              (JObject
                 [(js "success", JBool false);
                  (js "error",
                   JString
                     (js "LAUNCHDARKLY_CLIENT_SIDE_ID not configured"))])).
  { intros init. unfold handler. apply jsstring_eqb_neq in Hm. rewrite Hm.
    unfold attempt, Relay.configured in *.
    destruct (Relay.LAUNCHDARKLY_CLIENT_SIDE_ID env) as [[|c id]|];
      try discriminate; reflexivity. }
  rewrite (Hany initLD). split; [reflexivity|]. split; [reflexivity|].
  intros init. apply Hany.
Qed.

(** X24: when every call to the flag service goes through, the answer is
    status 200 with [success: true], the two flag values as the service
    gave them for the user context of the request, and the user key: the
    x-user-id header, or "anonymous-user" when that header is missing or
    empty. *)
Theorem flags_are_reported req id client v1 v2 :
  method req <> js "OPTIONS" ->
  Relay.LAUNCHDARKLY_CLIENT_SIDE_ID env = Some id -> id <> [] ->
  initLD id = ret client ->
  waitForInitialization client = ret tt ->
  variation client (js "enableMyNewFeature") (userContextOf req)
    (JBool false) = ret v1 ->
  variation client (js "enableEnhancedValidation") (userContextOf req)
    (JBool false) = ret v2 ->
  close client = ret tt ->
  handle req =
    respond 200
      (JObject
         [(js "success", JBool true);
          (js "flags",
           JObject [(js "enableMyNewFeature", v1);
                    (js "enableEnhancedValidation", v2)]);
          (js "user",
           JString (match header req (js "x-user-id") with
                    | Some (c :: user) => c :: user
                    | Some [] | None => js "anonymous-user"
                    end))]).
Proof.
  intros Hm Hid Hne Hinit Hwait Hv1 Hv2 Hclose.
  rewrite (handle_not_options req Hm), (attempt_with_id req id Hid Hne).
  rewrite Hinit. cbn [bind ret]. rewrite Hwait. cbn [bind ret].
  rewrite Hv1. cbn [bind ret]. rewrite Hv2. cbn [bind ret].
  rewrite Hclose. cbn [bind ret try_catch].
  unfold userContextOf, headerOr. cbn [key].
  destruct (header req (js "x-user-id")) as [[|c u]|]; reflexivity.
Qed.


End FlagFacts.

(** ** Concrete runs *)

Lemma flags_served_for_any_method_witness :
  handler envReady (fun _ => ret flagClient) (flagRequest (js "DELETE") None)
  = handler envReady (fun _ => ret flagClient) (flagRequest (js "GET") None)
  /\
  (Relay.status (handler envReady (fun _ => ret flagClient)
                   (flagRequest (js "DELETE") None)) = 200%N \/
   Relay.status (handler envReady (fun _ => ret flagClient)
                   (flagRequest (js "DELETE") None)) = 500%N) /\
  Relay.headers (handler envReady (fun _ => ret flagClient)
                   (flagRequest (js "DELETE") None)) =
    [(js "Access-Control-Allow-Origin", js "*");
     (js "Access-Control-Allow-Headers", js "Content-Type");
     (js "Access-Control-Allow-Methods", js "GET, POST, OPTIONS");
     (js "Content-Type", js "application/json")].
Proof.
  apply (flags_served_for_any_method envReady (fun _ => ret flagClient)
           (flagRequest (js "DELETE") None) (flagRequest (js "GET") None));
    try reflexivity; discriminate.
Defined.

Lemma flags_need_the_identifier_witness :
  handler envMissing (fun _ => ret flagClient) (flagRequest (js "GET") None)
  = respond 500
      (JObject
         [(js "success", JBool false);
          (js "error",
           JString (js "LAUNCHDARKLY_CLIENT_SIDE_ID not configured"))]).
Proof.
  apply (flags_need_the_identifier envMissing (fun _ => ret flagClient)
           (flagRequest (js "GET") None));
    [discriminate | reflexivity].
Defined.

Lemma flags_are_reported_witness :
  handler envReady (fun _ => ret flagClient)
    (flagRequest (js "GET") (Some (js "u-17")))
  = respond 200
      (JObject
         [(js "success", JBool true);
          (js "flags",
           JObject [(js "enableMyNewFeature", JBool true);
                    (js "enableEnhancedValidation", JBool false)]);
          (js "user", JString (js "u-17"))]) /\
  handler envReady (fun _ => ret flagClient)
    (flagRequest (js "GET") (Some []))
  = respond 200
      (JObject
         [(js "success", JBool true);
          (js "flags",
           JObject [(js "enableMyNewFeature", JBool true);
                    (js "enableEnhancedValidation", JBool false)]);
          (js "user", JString (js "anonymous-user"))]).
Proof.
  split.
  - apply (flags_are_reported envReady (fun _ => ret flagClient)
             (flagRequest (js "GET") (Some (js "u-17"))) (js "ld-client")
             flagClient (JBool true) (JBool false));
      try reflexivity; discriminate.
  - apply (flags_are_reported envReady (fun _ => ret flagClient)
             (flagRequest (js "GET") (Some [])) (js "ld-client")
             flagClient (JBool true) (JBool false));
      try reflexivity; discriminate.
Defined.


End FeatureFlagsFacts.
